(** * Contact backend: a shallow embedding of [main.py]

    The FastAPI application of [main.py] has three kinds of routes: two static
    greetings, the [/test] database probe and the [/contact] submission
    handler.  This development embeds the probe, the pydantic model
    [ContactIn], the mail helper [send_email_via_smtp] and the handler
    [submit_contact], and proves the properties of the contact workflow
    (validation, persistence, best-effort notification) against them.

    External collaborators (the [database] module, [smtplib], the [email]
    package, pydantic's field validators and the process environment) are
    gathered in a record [World]; every statement quantifies over it. *)

From Stdlib Require Import ZArith NArith Ascii String List Lia.
From stdpp Require Import base option list strings gmap fin_maps.

Set Warnings "-register-all".

(** ** Python values *)

(** A Python [str] is a sequence of Unicode code points; slicing such as
    [s[:120]] counts code points, which [take 120] does on this
    representation.  Names that the program only uses as keys (dictionary
    keys, environment variable names, the collection name, class names) are
    plain [string]s. *)
Abbreviation pystr := (list N) (only parsing).

Definition lit (s : string) : pystr := N_of_ascii <$> list_ascii_of_string s.

(** The values the program puts into dictionaries. *)
Inductive pyval :=
| VNone
| VBool (b : bool)
| VStr (s : pystr)
| VList (l : list pyval).

Abbreviation dict := (gmap string pyval) (only parsing).

(** A decoded JSON value, as the request body arrives. *)
Inductive json :=
| JNull
| JBool (b : bool)
| JNumber (literal : pystr)
| JString (s : pystr)
| JArray (items : list json)
| JObject (members : list (string * json)).

(** Truthiness of an [Optional[str]]: [None] and [""] are falsy.  [nonempty o]
    is the value of [o] when it is truthy. *)
Definition nonempty (o : option pystr) : option pystr :=
  match o with
  | Some (c :: s) => Some (c :: s)
  | _ => None
  end.

Definition truthy (o : option pystr) : bool :=
  match nonempty o with Some _ => true | None => false end.

(** [o or d] for an optional string [o] and a string [d]. *)
Definition or_else (o : option pystr) (d : pystr) : pystr :=
  match nonempty o with Some s => s | None => d end.

(** ** Exceptions and outcomes *)

(** An instance of [Exception], which is what [except Exception] ranges
    over: its class name, whether the class derives from [ImportError], and
    the text that [str(e)] gives. *)
Record exn := Exn {
  exn_class : string;
  exn_is_import_error : bool;
  exn_str : pystr;
}.

(** [fastapi.HTTPException(status_code=..., detail=...)]. *)
Record HTTPException := mkHTTPException {
  status_code : Z;
  detail : pystr;
}.

Inductive outcome (E A : Type) :=
| Returned (a : A)
| Raised (e : E).
Arguments Returned {E A} a.
Arguments Raised {E A} e.

(** ** A state and exception monad

    [M S E A] is a computation that threads a state [S] (the log of external
    calls for the contact workflow, the [response] dictionary for the probe)
    and either returns an [A] or raises an [E].  The state survives a raise,
    as a mutated Python object and an already performed call do. *)
Definition M (S E A : Type) : Type := S → outcome E A * S.

Definition ret {S E A} (a : A) : M S E A := λ s, (Returned a, s).

Definition raise {S E A} (e : E) : M S E A := λ s, (Raised e, s).

Definition bind {S E A B} (m : M S E A) (k : A → M S E B) : M S E B :=
  λ s, match m s with
       | (Returned a, s') => k a s'
       | (Raised e, s') => (Raised e, s')
       end.

(** [try: m  except Exception as e: h e], where the handler may raise an
    exception of another type. *)
Definition try_except {S E E' A} (m : M S E A) (h : E → M S E' A) : M S E' A :=
  λ s, match m s with
       | (Returned a, s') => (Returned a, s')
       | (Raised e, s') => h e s'
       end.

(** The outcome of an external call, injected into a computation. *)
Definition lift {S E A} (o : outcome E A) : M S E A := λ s, (o, s).

Definition modify {S E} (f : S → S) : M S E unit := λ s, (Returned tt, f s).

Declare Scope py_scope.
Delimit Scope py_scope with py.
Notation "x <- m ;; k" := (bind m (λ x, k))
  (at level 100, m at next level, right associativity) : py_scope.
Notation "m ;;; k" := (bind m (λ _, k))
  (at level 100, right associativity) : py_scope.
Local Open Scope py_scope.

(** ** [int(str)]

    The builtin on a [str] argument, base 10.  CPython first brings the string
    to ASCII (see [to_ascii] below) and then reads the literal: the blanks of
    the C locale around it are dropped, one sign is allowed, and the digits
    may be grouped by single underscores; a literal of more than 4300 digits
    is refused, as the default [int_max_str_digits] does. *)

(** The blanks that the reader of the literal skips: tab, line feed, vertical
    tab, form feed, carriage return and space. *)
Definition is_space (c : N) : bool :=
  ((9 <=? c) && (c <=? 13) || (c =? 32))%N.

Fixpoint lstrip (s : pystr) : pystr :=
  match s with
  | c :: s' => if is_space c then lstrip s' else s
  | [] => []
  end.

Definition strip (s : pystr) : pystr := rev (lstrip (rev (lstrip s))).

Definition digit (c : N) : option Z :=
  if ((48 <=? c) && (c <=? 57))%N then Some (Z.of_N (c - 48)) else None.

Definition is_digit (c : N) : bool :=
  match digit c with Some _ => true | None => false end.

Fixpoint digits_value (acc : Z) (after_digit : bool) (s : pystr) : option Z :=
  match s with
  | [] => if after_digit then Some acc else None
  | c :: s' =>
      if (c =? 95)%N
      then (if after_digit then digits_value acc false s' else None)
      else match digit c with
           | Some d => digits_value (10 * acc + d) true s'
           | None => None
           end
  end.

Definition ValueError (text : pystr) : exn :=
  {| exn_class := "ValueError"; exn_is_import_error := false; exn_str := text |}.

(** Reading the literal [t], the ASCII form of the argument [s] of [int]. *)
Definition parse_int (s t : pystr) : outcome exn Z :=
  let t := strip t in
  let '(sign, body) :=
    match t with
    | 43%N :: r => (1%Z, r)
    | 45%N :: r => ((-1)%Z, r)
    | _ => (1%Z, t)
    end in
  if (4300 <? length (filter (λ c, is_digit c = true) body))%nat
  then Raised (ValueError (lit "Exceeds the limit (4300 digits) for integer string conversion"))
  else match digits_value 0 false body with
       | Some n => Returned (sign * n)%Z
       | None =>
           Raised (ValueError (lit "invalid literal for int() with base 10: '" ++ s ++ lit "'"))
       end.

(** ** The collaborators *)

(** The message object that [send_email_via_smtp] builds: the text handed to
    [MIMEText(body, "plain", "utf-8")] and the headers of the message, in the
    order in which they were added. *)
Record MIMEText := {
  mime_text : pystr;
  mime_subtype : string;
  mime_charset : string;
  mime_headers : list (string * pystr);
}.

(** [MIMEText(text, subtype, "utf-8")]: the constructor adds the content
    type, the MIME version and the transfer encoding of the charset, which is
    base64 for UTF-8, the charset that the program passes. *)
Definition MIMEText_new (text : pystr) (subtype charset : string) : MIMEText :=
  {| mime_text := text; mime_subtype := subtype; mime_charset := charset;
     mime_headers :=
       [("Content-Type",
         lit "text/" ++ lit subtype ++ lit "; charset=" ++ [34%N] ++ lit charset ++ [34%N]);
        ("MIME-Version", lit "1.0");
        ("Content-Transfer-Encoding", lit "base64")] |}.

(** [msg[name] = value] appends a header. *)
Definition set_header (name : string) (value : pystr) (msg : MIMEText) : MIMEText :=
  {| mime_text := mime_text msg; mime_subtype := mime_subtype msg;
     mime_charset := mime_charset msg;
     mime_headers := mime_headers msg ++ [(name, value)] |}.

Definition header (name : string) (msg : MIMEText) : option pystr :=
  snd <$> List.find (λ h, bool_decide (fst h = name)) (mime_headers msg).

(** The handle [db] of the [database] module: [db_name] is the result of
    reading the attribute [name] ([Returned None] when the object has no such
    attribute, which is what [hasattr] tests), [list_collection_names] the
    result of the call of that name. *)
Record Database := {
  db_name : outcome exn (option pyval);
  list_collection_names : outcome exn (list pystr);
}.

(** Everything outside [main.py] that a request depends on.  Each field
    gives, for the arguments the program passes, what the collaborator does:
    it returns or it raises. *)
Record World := {
  (** [os.environ] *)
  environ : gmap string pystr;
  (** the Unicode database, on the code points above 127: whether one is a
      blank ([str.isspace]) and the value of a decimal digit *)
  unicode_isspace : N → bool;
  unicode_decimal : N → option N;
  (** pydantic: the conversion of a JSON value that is neither a string nor
      null to [str] (none in strict versions), and the [EmailStr] check, which
      yields the normalised address of a syntactically valid one *)
  str_coerce : json → option pystr;
  validate_email : pystr → option pystr;
  (** the [database] module: awaiting [create_document(collection, data)],
      and [from database import db] ([Returned None] when [db is None]) *)
  create_document : string → dict → outcome exn unit;
  import_db : outcome exn (option Database);
  (** the [email] package *)
  MIMEText_init : pystr → outcome exn unit;
  formataddr : pystr → pystr → outcome exn pystr;
  as_string : MIMEText → outcome exn pystr;
  (** [smtplib.SMTP]: the constructor (which connects), the three commands
      and [__exit__] *)
  smtp_connect : pystr → Z → outcome exn unit;
  smtp_starttls : outcome exn unit;
  smtp_login : pystr → pystr → outcome exn unit;
  smtp_sendmail : pystr → list pystr → pystr → outcome exn unit;
  smtp_exit : outcome exn unit;
  (** [import uvicorn] and [uvicorn.run(app, host=..., port=...)] *)
  import_uvicorn : outcome exn unit;
  uvicorn_run : pystr → Z → outcome exn unit;
}.

(** The log of a request: the calls of the handler to its two collaborators
    and the network operations of the SMTP session, oldest first. *)
Inductive event :=
| Call_create_document (collection_name : string) (data : dict)
| Call_send_email_via_smtp (name email subject message : pystr)
| SMTP_connect (host : pystr) (port : Z)
| SMTP_starttls
| SMTP_login (user password : pystr)
| SMTP_sendmail (from_addr : pystr) (to_addrs : list pystr) (msg : pystr)
| SMTP_exit.

Abbreviation log := (list event) (only parsing).

Definition is_network (ev : event) : bool :=
  match ev with
  | SMTP_connect _ _ | SMTP_starttls | SMTP_login _ _
  | SMTP_sendmail _ _ _ | SMTP_exit => true
  | Call_create_document _ _ | Call_send_email_via_smtp _ _ _ _ => false
  end.

Definition is_mail (ev : event) : bool :=
  match ev with
  | Call_create_document _ _ => false
  | _ => true
  end.

Definition tell {E} (ev : event) : M log E unit := modify (λ tr, tr ++ [ev]).

(** [class ContactIn(BaseModel)] *)
Record ContactIn := {
  name : pystr;
  email : pystr;
  subject : option pystr;
  message : pystr;
}.

Definition opt_val (o : option pystr) : pyval :=
  match o with Some s => VStr s | None => VNone end.

Section Program.

Variable w : World.

Definition getenv (key : string) : option pystr := environ w !! key.

(** [os.getenv(key, default)], for a default that may be [None] and for one
    that is a string. *)
Definition getenv_default (key : string) (default : option pystr) : option pystr :=
  match environ w !! key with Some v => Some v | None => default end.

Definition getenv_str (key : string) (default : pystr) : pystr :=
  match environ w !! key with Some v => v | None => default end.

(** The ASCII form of a string, as [int] takes it: the code points below 128
    stay, a blank above becomes a space and a decimal digit above becomes its
    ASCII digit; with any other code point the literal is invalid. *)
Definition to_ascii (s : pystr) : option pystr :=
  mapM (λ c, if (c <? 128)%N then Some c
             else if unicode_isspace w c then Some 32%N
             else (λ d, (48 + d)%N) <$> unicode_decimal w c) s.

Definition py_int (s : pystr) : outcome exn Z :=
  match to_ascii s with
  | Some t => parse_int s t
  | None =>
      Raised (ValueError (lit "invalid literal for int() with base 10: '" ++ s ++ lit "'"))
  end.

(** *** [send_email_via_smtp] *)

(** [with smtplib.SMTP(host, port) as server: body]: the constructor
    connects; once it has returned, [__exit__] runs however the body ends,
    and an exception of [__exit__] replaces the outcome of the body. *)
Definition with_SMTP {A} (host : pystr) (port : Z) (body : M log exn A) : M log exn A :=
  tell (SMTP_connect host port) ;;;
  lift (smtp_connect w host port) ;;;
  λ tr, let '(r, tr1) := body tr in
        match (tell SMTP_exit ;;; lift (smtp_exit w)) tr1 with
        | (Returned _, tr2) => (r, tr2)
        | (Raised e, tr2) => (Raised e, tr2)
        end.

Definition send_email_via_smtp (name email subject message : pystr) : M log exn bool :=
  tell (Call_send_email_via_smtp name email subject message) ;;;
  let host := getenv "SMTP_HOST" in
  port <- lift (py_int (getenv_str "SMTP_PORT" (lit "587"))) ;;
  let user := getenv "SMTP_USER" in
  let password := getenv "SMTP_PASS" in
  let to_email := getenv_default "SMTP_TO" user in
  match nonempty host, nonempty user, nonempty password, nonempty to_email with
  | Some host, Some user, Some password, Some to_email =>
      let full_subject := or_else (Some subject) (lit "New Portfolio Contact Message") in
      let body := lit "Name: " ++ name ++ [10%N] ++ lit "Email: " ++ email
                  ++ [10%N; 10%N] ++ lit "Message:" ++ [10%N] ++ message in
      lift (MIMEText_init w body) ;;;
      let msg := MIMEText_new body "plain" "utf-8" in
      let msg := set_header "Subject" full_subject msg in
      from <- lift (formataddr w name user) ;;
      let msg := set_header "From" from msg in
      let msg := set_header "To" to_email msg in
      with_SMTP host port (
        tell SMTP_starttls ;;; lift (smtp_starttls w) ;;;
        tell (SMTP_login user password) ;;; lift (smtp_login w user password) ;;;
        text <- lift (as_string w msg) ;;
        tell (SMTP_sendmail user [to_email] text) ;;;
        lift (smtp_sendmail w user [to_email] text)) ;;;
      ret true
  | _, _, _, _ =>
      (* SMTP not fully configured; skip sending *)
      ret false
  end.

(** *** [POST /contact] *)

Definition submit_contact (payload : ContactIn) : M log HTTPException dict :=
  (* Save to database *)
  try_except
    (let doc : dict :=
       {[ "name" := VStr (name payload);
          "email" := VStr (email payload);
          "subject" := opt_val (subject payload);
          "message" := VStr (message payload) ]} in
     tell (Call_create_document "contactmessage" doc) ;;;
     lift (create_document w "contactmessage" doc))
    (λ e, raise {| status_code := 500;
                   detail := lit "Database error: " ++ take 120 (exn_str e) |}) ;;;
  (* Attempt email send *)
  sent <- try_except
            (send_email_via_smtp (name payload) (email payload)
               (or_else (subject payload) (lit "Portfolio Contact"))
               (message payload))
            (λ _, ret false) ;;
  ret ({[ "ok" := VBool true; "email_sent" := VBool sent ]} : dict).

(** pydantic's validation of one [str] field value. *)
Definition str_validator (v : json) : option pystr :=
  match v with
  | JString s => Some s
  | JNull => None
  | _ => str_coerce w v
  end.

(** A required field of type [str], and a field of type [Optional[str]]
    with default [None]; [None] as the result is a validation error. *)
Definition required_str (body : gmap string json) (key : string) : option pystr :=
  match body !! key with
  | Some v => str_validator v
  | None => None
  end.

Definition optional_str (body : gmap string json) (key : string)
  : option (option pystr) :=
  match body !! key with
  | None | Some JNull => Some None
  | Some v =>
      match str_validator v with
      | Some s => Some (Some s)
      | None => None
      end
  end.

(** [email: EmailStr]: a string that the address check accepts; the field
    holds the normalised address. *)
Definition required_email (body : gmap string json) (key : string) : option pystr :=
  match required_str body key with
  | Some s => validate_email w s
  | None => None
  end.

(** The construction of a [ContactIn] from the decoded request body: [name],
    [email] and [message] are required, [subject] is optional; keys that the
    model does not declare are ignored. *)
Definition ContactIn_validate (body : gmap string json) : option ContactIn :=
  match required_str body "name", required_email body "email",
        optional_str body "subject", required_str body "message" with
  | Some name, Some email, Some subject, Some message =>
      Some {| name := name; email := email; subject := subject; message := message |}
  | _, _, _, _ => None
  end.

(** What FastAPI answers. *)
Inductive Response :=
| JSONResponse (status : Z) (content : dict)
| RequestValidationError.

Definition status_of (r : Response) : Z :=
  match r with
  | JSONResponse status _ => status
  | RequestValidationError => 422
  end.

(** The route [@app.post("/contact")]: FastAPI builds the [ContactIn] from the
    body and answers 422 without calling the handler when that fails; it
    turns a raised [HTTPException] into a response with its status code and
    detail, and a returned dictionary into a 200 response. *)
Definition post_contact (body : gmap string json) : Response * log :=
  match ContactIn_validate body with
  | None => (RequestValidationError, [])
  | Some payload =>
      match submit_contact payload [] with
      | (Returned content, tr) => (JSONResponse 200 content, tr)
      | (Raised e, tr) =>
          (JSONResponse (status_code e) {[ "detail" := VStr (detail e) ]}, tr)
      end
  end.

(** *** [GET /test] *)

Definition setitem {E} (key : string) (value : pyval) : M dict E unit :=
  modify (λ response, <[key := value]> response).

Definition check_mark : pystr := [9989%N].
Definition cross_mark : pystr := [10060%N].
Definition warning_sign : pystr := [9888%N; 65039%N].

Definition test_database_response : dict :=
  {[ "backend" := VStr (check_mark ++ lit " Running");
     "database" := VStr (cross_mark ++ lit " Not Available");
     "database_url" := VNone;
     "database_name" := VNone;
     "connection_status" := VStr (lit "Not Connected");
     "collections" := VList [] ]}.

Definition test_database : M dict exn dict :=
  try_except
    ((* Try to import database module *)
     db <- lift (import_db w) ;;
     match db with
     | Some db =>
         setitem "database" (VStr (check_mark ++ lit " Available")) ;;;
         setitem "database_url" (VStr (check_mark ++ lit " Configured")) ;;;
         name <- lift (db_name db) ;;
         setitem "database_name"
           (match name with
            | Some v => v
            | None => VStr (check_mark ++ lit " Connected")
            end) ;;;
         setitem "connection_status" (VStr (lit "Connected")) ;;;
         (* Try to list collections to verify connectivity *)
         try_except
           (collections <- lift (list_collection_names db) ;;
            setitem "collections" (VList (VStr <$> take 10 collections)) ;;;
            setitem "database" (VStr (check_mark ++ lit " Connected & Working")))
           (λ e, setitem "database"
                   (VStr (warning_sign ++ lit "  Connected but Error: "
                          ++ take 50 (exn_str e))))
     | None =>
         setitem "database"
           (VStr (warning_sign ++ lit "  Available but not initialized"))
     end)
    (λ e, if exn_is_import_error e
          then setitem "database"
                 (VStr (cross_mark
                        ++ lit " Database module not found (run enable-database first)"))
          else setitem "database"
                 (VStr (cross_mark ++ lit " Error: " ++ take 50 (exn_str e)))) ;;;
  (* Check environment variables *)
  setitem "database_url"
    (VStr (if truthy (getenv "DATABASE_URL")
           then check_mark ++ lit " Set" else cross_mark ++ lit " Not Set")) ;;;
  setitem "database_name"
    (VStr (if truthy (getenv "DATABASE_NAME")
           then check_mark ++ lit " Set" else cross_mark ++ lit " Not Set")) ;;;
  λ response, (Returned response, response).

(** The route [@app.get("/test")]: the handler starts from a fresh [response]
    dictionary; an exception that escaped it would be answered with 500. *)
Definition get_test : Response :=
  match test_database test_database_response with
  | (Returned content, _) => JSONResponse 200 content
  | (Raised _, _) => JSONResponse 500 {[ "detail" := VStr (lit "Internal Server Error") ]}
  end.

(** *** The static routes and the entry point *)

(** [GET /] and [GET /api/hello]. *)
Definition read_root : dict :=
  {[ "message" := VStr (lit "Hello from FastAPI Backend!") ]}.

Definition hello : dict :=
  {[ "message" := VStr (lit "Hello from the backend API!") ]}.


End Program.

(** ** Sample worlds *)

Module Sample.

Definition ada : pystr := lit "ada@example.com".

Definition Exception (text : pystr) : exn :=
  {| exn_class := "Exception"; exn_is_import_error := false; exn_str := text |}.

(** The blanks above 127, and the decimal digits of four blocks: Arabic-Indic,
    extended Arabic-Indic, Devanagari and fullwidth. *)
Definition unicode_blanks : list N :=
  [133; 160; 5760; 8192; 8193; 8194; 8195; 8196; 8197; 8198; 8199; 8200; 8201;
   8202; 8232; 8233; 8239; 8287; 12288]%N.

Definition unicode_digit (c : N) : option N :=
  if ((1632 <=? c) && (c <=? 1641))%N then Some (c - 1632)%N
  else if ((1776 <=? c) && (c <=? 1785))%N then Some (c - 1776)%N
  else if ((2406 <=? c) && (c <=? 2415))%N then Some (c - 2406)%N
  else if ((65296 <=? c) && (c <=? 65305))%N then Some (c - 65296)%N
  else None.

(** A rendering of a message: one line per header, an empty line and the
    text. *)
Definition render (msg : MIMEText) : pystr :=
  concat ((λ h, lit (fst h) ++ lit ": " ++ snd h ++ [10%N]) <$> mime_headers msg)
  ++ [10%N] ++ mime_text msg.

(** A world without configuration in which the store acknowledges every
    write and every library call succeeds.  The address check is given at
    the address of the scenarios only, which it accepts unchanged; the string
    conversion is the strict one. *)
Definition plain : World :=
  {| environ := ∅;
     unicode_isspace := λ c, bool_decide (c ∈ unicode_blanks);
     unicode_decimal := unicode_digit;
     str_coerce := λ _, None;
     validate_email := λ s, if decide (s = ada) then Some s else None;
     create_document := λ _ _, Returned tt;
     import_db := Returned None;
     MIMEText_init := λ _, Returned tt;
     formataddr := λ name address, Returned (name ++ lit " <" ++ address ++ lit ">");
     as_string := λ msg, Returned (render msg);
     smtp_connect := λ _ _, Returned tt;
     smtp_starttls := Returned tt;
     smtp_login := λ _ _, Returned tt;
     smtp_sendmail := λ _ _ _, Returned tt;
     smtp_exit := Returned tt;
     import_uvicorn := Returned tt;
     uvicorn_run := λ _ _, Returned tt |}.

Definition with_environ (env : gmap string pystr) (w : World) : World :=
  {| environ := env;
     unicode_isspace := unicode_isspace w;
     unicode_decimal := unicode_decimal w;
     str_coerce := str_coerce w;
     validate_email := validate_email w;
     create_document := create_document w;
     import_db := import_db w;
     MIMEText_init := MIMEText_init w;
     formataddr := formataddr w;
     as_string := as_string w;
     smtp_connect := smtp_connect w;
     smtp_starttls := smtp_starttls w;
     smtp_login := smtp_login w;
     smtp_sendmail := smtp_sendmail w;
     smtp_exit := smtp_exit w;
     import_uvicorn := import_uvicorn w;
     uvicorn_run := uvicorn_run w |}.

Definition with_create_document (f : string → dict → outcome exn unit) (w : World) : World :=
  {| environ := environ w;
     unicode_isspace := unicode_isspace w;
     unicode_decimal := unicode_decimal w;
     str_coerce := str_coerce w;
     validate_email := validate_email w;
     create_document := f;
     import_db := import_db w;
     MIMEText_init := MIMEText_init w;
     formataddr := formataddr w;
     as_string := as_string w;
     smtp_connect := smtp_connect w;
     smtp_starttls := smtp_starttls w;
     smtp_login := smtp_login w;
     smtp_sendmail := smtp_sendmail w;
     smtp_exit := smtp_exit w;
     import_uvicorn := import_uvicorn w;
     uvicorn_run := uvicorn_run w |}.

Definition with_smtp_login (f : pystr → pystr → outcome exn unit) (w : World) : World :=
  {| environ := environ w;
     unicode_isspace := unicode_isspace w;
     unicode_decimal := unicode_decimal w;
     str_coerce := str_coerce w;
     validate_email := validate_email w;
     create_document := create_document w;
     import_db := import_db w;
     MIMEText_init := MIMEText_init w;
     formataddr := formataddr w;
     as_string := as_string w;
     smtp_connect := smtp_connect w;
     smtp_starttls := smtp_starttls w;
     smtp_login := f;
     smtp_sendmail := smtp_sendmail w;
     smtp_exit := smtp_exit w;
     import_uvicorn := import_uvicorn w;
     uvicorn_run := uvicorn_run w |}.

(** Mail fully configured. *)
Definition smtp_environ : gmap string pystr :=
  {[ "SMTP_HOST" := lit "smtp.example.com";
     "SMTP_USER" := lit "me@example.com";
     "SMTP_PASS" := lit "secret" ]}.

Definition configured : World := with_environ smtp_environ plain.

(** The store is down. *)
Definition store_down : World :=
  with_create_document (λ _ _, Raised (Exception (lit "Database not available"))) configured.

(** Wrong credentials. *)
Definition bad_login : World :=
  with_smtp_login
    (λ _ _, Raised {| exn_class := "SMTPAuthenticationError";
                      exn_is_import_error := false;
                      exn_str := lit "(535, b'Authentication failed')" |})
    configured.

Definition with_smtp_exit (o : outcome exn unit) (w : World) : World :=
  {| environ := environ w;
     unicode_isspace := unicode_isspace w;
     unicode_decimal := unicode_decimal w;
     str_coerce := str_coerce w;
     validate_email := validate_email w;
     create_document := create_document w;
     import_db := import_db w;
     MIMEText_init := MIMEText_init w;
     formataddr := formataddr w;
     as_string := as_string w;
     smtp_connect := smtp_connect w;
     smtp_starttls := smtp_starttls w;
     smtp_login := smtp_login w;
     smtp_sendmail := smtp_sendmail w;
     smtp_exit := o;
     import_uvicorn := import_uvicorn w;
     uvicorn_run := uvicorn_run w |}.

(** The relay accepts the message but answers the closing of the session
    with an error. *)
Definition bad_quit : World :=
  with_smtp_exit
    (Raised {| exn_class := "SMTPResponseException";
               exn_is_import_error := false;
               exn_str := lit "(421, b'Service not available')" |})
    configured.

Definition with_import_db (o : outcome exn (option Database)) (w : World) : World :=
  {| environ := environ w;
     unicode_isspace := unicode_isspace w;
     unicode_decimal := unicode_decimal w;
     str_coerce := str_coerce w;
     validate_email := validate_email w;
     create_document := create_document w;
     import_db := o;
     MIMEText_init := MIMEText_init w;
     formataddr := formataddr w;
     as_string := as_string w;
     smtp_connect := smtp_connect w;
     smtp_starttls := smtp_starttls w;
     smtp_login := smtp_login w;
     smtp_sendmail := smtp_sendmail w;
     smtp_exit := smtp_exit w;
     import_uvicorn := import_uvicorn w;
     uvicorn_run := uvicorn_run w |}.

(** A store with twelve collections. *)
Definition twelve_collections : list (list N) :=
  (λ c, lit "c" ++ [c]) <$> [48; 49; 50; 51; 52; 53; 54; 55; 56; 57; 97; 98]%N.

Definition portfolio_db : Database :=
  {| db_name := Returned (Some (VStr (lit "portfolio")));
     list_collection_names := Returned twelve_collections |}.

Definition with_store : World := with_import_db (Returned (Some portfolio_db)) plain.

Definition ada_body (subject : option json) (name message : pystr) : gmap string json :=
  let body : gmap string json :=
    {[ "name" := JString name; "email" := JString ada; "message" := JString message ]} in
  match subject with
  | Some v => <["subject" := v]> body
  | None => body
  end.

End Sample.

(** ** Vocabulary of the statements *)

(** The document that [submit_contact] hands to the store. *)
Definition ContactDocument (payload : ContactIn) : dict :=
  {[ "name" := VStr (name payload);
     "email" := VStr (email payload);
     "subject" := opt_val (subject payload);
     "message" := VStr (message payload) ]}.

(** The subject that [submit_contact] passes to the mail helper. *)
Definition notification_subject (payload : ContactIn) : pystr :=
  or_else (subject payload) (lit "Portfolio Contact").

(** A computation on the log is framed when it only appends to the log and
    its outcome does not depend on what was logged before. *)
Definition framed {E A} (m : M log E A) : Prop :=
  ∀ tr, m tr = (fst (m []), tr ++ snd (m [])).

(** [sent] after the second [try] block, from the outcome of the helper. *)
Definition sent_flag (r : outcome exn bool) : bool :=
  match r with
  | Returned b => b
  | Raised _ => false
  end.

(** A key that is absent from the body or bound to [null]. *)
Definition lacks (body : gmap string json) (key : string) : Prop :=
  body !! key = None ∨ body !! key = Some JNull.

(** An [email] that is absent, [null], or a string that the address check
    refuses. *)
Definition invalid_email (w : World) (body : gmap string json) : Prop :=
  lacks body "email"
  ∨ ∃ s, body !! "email" = Some (JString s) ∧ validate_email w s = None.

(** The validation property as the specification words it: an empty [name],
    an empty [message] or an invalid [email] is answered with the validation
    error and nothing is logged. *)
Definition rejects_empty_fields (w : World) (body : gmap string json) : Prop :=
  body !! "name" = Some (JString [])
  ∨ body !! "message" = Some (JString [])
  ∨ (∃ s, body !! "email" = Some (JString s) ∧ validate_email w s = None) →
  status_of (fst (post_contact w body)) = 422%Z ∧ snd (post_contact w body) = [].

(** The condition of the gate: host, user, password and the recipient
    ([SMTP_TO], by default the user) are all set and not empty. *)
Definition smtp_configured (w : World) : bool :=
  truthy (getenv w "SMTP_HOST")
  && truthy (getenv w "SMTP_USER")
  && truthy (getenv w "SMTP_PASS")
  && truthy (getenv_default w "SMTP_TO" (getenv w "SMTP_USER")).

(** The keys of the body of [GET /test]. *)
Definition envelope : gset string :=
  {[ "backend"; "database"; "database_url"; "database_name";
     "connection_status"; "collections" ]}.

(** A key bound to a string, and a key bound to a list. *)
Definition is_str (o : option pyval) : Prop := ∃ s, o = Some (VStr s).

Definition is_list (o : option pyval) : Prop := ∃ l, o = Some (VList l).

(** The shape of the [response] dictionary: the six keys, with strings for
    the status fields and a list for the collections. *)
Definition well_shaped (response : dict) : Prop :=
  dom response = envelope
  ∧ is_str (response !! "backend")
  ∧ is_str (response !! "database")
  ∧ is_str (response !! "database_url")
  ∧ is_str (response !! "database_name")
  ∧ is_str (response !! "connection_status")
  ∧ is_list (response !! "collections").

(** How the probe renders what it caught, in the [database] field. *)
Definition renders_failures (w : World) (response : dict) : Prop :=
  (∀ e, import_db w = Raised e →
     response !! "database" =
       Some (VStr (if exn_is_import_error e
                   then cross_mark
                        ++ lit " Database module not found (run enable-database first)"
                   else cross_mark ++ lit " Error: " ++ take 50 (exn_str e))))
  ∧ (∀ db e, import_db w = Returned (Some db) → db_name db = Raised e →
       response !! "database" =
         Some (VStr (if exn_is_import_error e
                     then cross_mark
                          ++ lit " Database module not found (run enable-database first)"
                     else cross_mark ++ lit " Error: " ++ take 50 (exn_str e))))
  ∧ (∀ db nm e, import_db w = Returned (Some db) → db_name db = Returned nm →
       list_collection_names db = Raised e →
       response !! "database" =
         Some (VStr (warning_sign ++ lit "  Connected but Error: "
                     ++ take 50 (exn_str e)))).

(** The fields that [ContactIn] declares. *)
Definition contact_fields : gset string :=
  {[ "name"; "email"; "subject"; "message" ]}.

(** The mail settings that pass the gate of [send_email_via_smtp]: host,
    user, password and recipient. *)
Definition smtp_settings (w : World) : option (pystr * pystr * pystr * pystr) :=
  match nonempty (getenv w "SMTP_HOST"), nonempty (getenv w "SMTP_USER"),
        nonempty (getenv w "SMTP_PASS"),
        nonempty (getenv_default w "SMTP_TO" (getenv w "SMTP_USER")) with
  | Some host, Some user, Some password, Some to_email =>
      Some (host, user, password, to_email)
  | _, _, _, _ => None
  end.

(** The text of the notification. *)
Definition mail_text (name email message : pystr) : pystr :=
  lit "Name: " ++ name ++ [10%N] ++ lit "Email: " ++ email
  ++ [10%N; 10%N] ++ lit "Message:" ++ [10%N] ++ message.

(** The message object of the notification, once the sender is formatted. *)
Definition mail_message (name email subject message from to_email : pystr) : MIMEText :=
  set_header "To" to_email
    (set_header "From" from
       (set_header "Subject" (or_else (Some subject) (lit "New Portfolio Contact Message"))
          (MIMEText_new (mail_text name email message) "plain" "utf-8"))).


(** The number of entries of a log that satisfy a test. *)
Definition count (p : event → bool) (tr : log) : nat := length (List.filter p tr).

Definition is_store_call (ev : event) : bool :=
  match ev with Call_create_document _ _ => true | _ => false end.

Definition is_helper_call (ev : event) : bool :=
  match ev with Call_send_email_via_smtp _ _ _ _ => true | _ => false end.

Definition is_connect (ev : event) : bool :=
  match ev with SMTP_connect _ _ => true | _ => false end.

Definition is_sendmail (ev : event) : bool :=
  match ev with SMTP_sendmail _ _ _ => true | _ => false end.

(** ** Reasoning about computations *)

(** Two equations about one external call give one outcome. *)
Ltac same_call :=
  simplify_eq;
  repeat (match goal with
          | H1 : ?call = _, H2 : ?call = _ |- _ => rewrite H1 in H2
          end; simplify_eq).

Create HintDb framed.

Lemma framed_ret {E A} (a : A) : framed (ret (S:=log) (E:=E) a).
Proof. intros tr. unfold ret. simpl. by rewrite app_nil_r. Qed.

Lemma framed_raise {E A} (e : E) : framed (raise (S:=log) (A:=A) e).
Proof. intros tr. unfold raise. simpl. by rewrite app_nil_r. Qed.

Lemma framed_lift {E A} (o : outcome E A) : framed (lift (S:=log) o).
Proof. intros tr. unfold lift. simpl. by rewrite app_nil_r. Qed.

Lemma framed_tell {E} (ev : event) : framed (tell (E:=E) ev).
Proof. intros tr. reflexivity. Qed.

Lemma framed_bind {E A B} (m : M log E A) (k : A → M log E B) :
  framed m → (∀ a, framed (k a)) → framed (bind m k).
Proof.
  intros Hm Hk tr. unfold bind.
  rewrite (Hm tr). destruct (m []) as [[a|e] t]; simpl.
  - rewrite (Hk a (tr ++ t)), (Hk a t). simpl. by rewrite app_assoc.
  - reflexivity.
Qed.

Lemma framed_try_except {E E' A} (m : M log E A) (h : E → M log E' A) :
  framed m → (∀ e, framed (h e)) → framed (try_except m h).
Proof.
  intros Hm Hh tr. unfold try_except.
  rewrite (Hm tr). destruct (m []) as [[a|e] t]; simpl.
  - reflexivity.
  - rewrite (Hh e (tr ++ t)), (Hh e t). simpl. by rewrite app_assoc.
Qed.

Lemma framed_with_SMTP {A} w host port (body : M log exn A) :
  framed body → framed (with_SMTP w host port body).
Proof.
  intros Hb. unfold with_SMTP.
  apply framed_bind; [apply framed_tell | intros _].
  apply framed_bind; [apply framed_lift | intros _].
  intros tr. rewrite (Hb tr). destruct (body []) as [r t]. simpl.
  unfold bind, tell, lift, modify. simpl.
  destruct (smtp_exit w); simpl; by rewrite app_assoc.
Qed.

#[global] Hint Resolve framed_ret framed_raise framed_lift framed_tell
  framed_bind framed_try_except framed_with_SMTP : framed.

Lemma framed_send_email_via_smtp w n e s m :
  framed (send_email_via_smtp w n e s m).
Proof.
  unfold send_email_via_smtp.
  apply framed_bind; [apply framed_tell | intros _].
  apply framed_bind; [apply framed_lift | intros port].
  repeat case_match; auto 20 with framed.
Qed.

(** *** The handler, step by step *)

Lemma submit_contact_run w payload :
  submit_contact w payload [] =
  let call := Call_create_document "contactmessage" (ContactDocument payload) in
  match create_document w "contactmessage" (ContactDocument payload) with
  | Raised e =>
      (Raised {| status_code := 500;
                 detail := lit "Database error: " ++ take 120 (exn_str e) |},
       [call])
  | Returned _ =>
      let run := send_email_via_smtp w (name payload) (email payload)
                   (notification_subject payload) (message payload) [] in
      (Returned {[ "ok" := VBool true; "email_sent" := VBool (sent_flag (fst run)) ]},
       call :: snd run)
  end.
Proof.
  unfold submit_contact, try_except, bind, tell, lift, modify, raise, ret.
  fold (ContactDocument payload). fold (notification_subject payload). simpl.
  destruct (create_document w "contactmessage" (ContactDocument payload)) as [[]|e];
    [|reflexivity].
  rewrite (framed_send_email_via_smtp w _ _ _ _ [_]).
  by destruct (send_email_via_smtp w _ _ _ _ []) as [[b|e] t].
Qed.

(** The log of the helper starts with its own call and continues with
    network operations only. *)
Lemma send_email_log w n e s m :
  ∃ rest, snd (send_email_via_smtp w n e s m []) = Call_send_email_via_smtp n e s m :: rest
          ∧ Forall (λ ev, is_network ev = true) rest.
Proof.
  unfold send_email_via_smtp, with_SMTP, bind, tell, lift, modify, ret. simpl.
  repeat (case_match; simplify_eq/=); eexists; (split; [reflexivity|]);
    repeat constructor.
Qed.

(** ** Validation *)

(** C1, as stated, fails: [name: str] accepts the empty string.  The body
    [{name: "", email: "ada@example.com", message: "Hello"}] passes validation,
    the document with the empty name is handed to the store and the mail
    helper is called. *)
Lemma C1_empty_name_is_accepted :
  let body := Sample.ada_body None [] (lit "Hello") in
  body !! "name" = Some (JString [])
  ∧ post_contact Sample.plain body =
      (JSONResponse 200 {[ "ok" := VBool true; "email_sent" := VBool false ]},
       [Call_create_document "contactmessage"
          {[ "name" := VStr []; "email" := VStr Sample.ada;
             "subject" := VNone; "message" := VStr (lit "Hello") ]};
        Call_send_email_via_smtp [] Sample.ada (lit "Portfolio Contact") (lit "Hello")])
  ∧ ¬ rejects_empty_fields Sample.plain body.
Proof.
  assert (Hrun : post_contact Sample.plain (Sample.ada_body None [] (lit "Hello")) =
      (JSONResponse 200 {[ "ok" := VBool true; "email_sent" := VBool false ]},
       [Call_create_document "contactmessage"
          {[ "name" := VStr []; "email" := VStr Sample.ada;
             "subject" := VNone; "message" := VStr (lit "Hello") ]};
        Call_send_email_via_smtp [] Sample.ada (lit "Portfolio Contact") (lit "Hello")]))
    by (vm_compute; reflexivity).
  cbv zeta. split; [by vm_compute|]. split; [exact Hrun|].
  intros H. destruct H as [H _].
  - left. by vm_compute.
  - rewrite Hrun in H. discriminate H.
Qed.

(** C1 (amended): a body that lacks [name] or [message], or whose [email] is
    missing or not a valid address, is answered with the validation error
    status 422 before any side effect: the handler is not called, so neither
    the store nor the mail helper is. *)
Theorem C1_validation_precedes_side_effects (w : World) (body : gmap string json) :
  lacks body "name" ∨ lacks body "message" ∨ invalid_email w body →
  post_contact w body = (RequestValidationError, [])
  ∧ status_of (fst (post_contact w body)) = 422%Z.
Proof.
  intros H.
  assert (Hv : ContactIn_validate w body = None).
  { unfold ContactIn_validate, required_email, required_str, lacks, invalid_email in *.
    destruct H as [[H|H]|[[H|H]|[[H|H]|(s & H & Hs)]]]; rewrite ?H; simpl;
      rewrite ?Hs; repeat case_match; reflexivity. }
  unfold post_contact. rewrite Hv. done.
Qed.

Lemma C1_validation_precedes_side_effects_witness :
  post_contact Sample.plain
    (<["email" := JString (lit "not-an-address")]>
       (Sample.ada_body None (lit "Ada") (lit "Hello")))
  = (RequestValidationError, [])
  ∧ status_of (fst (post_contact Sample.plain
      (<["email" := JString (lit "not-an-address")]>
         (Sample.ada_body None (lit "Ada") (lit "Hello"))))) = 422%Z.
Proof.
  apply C1_validation_precedes_side_effects.
  right. right. right. exists (lit "not-an-address").
  split; vm_compute; reflexivity.
Defined.

(** ** Persistence and notification *)

(** C2: when the store append raises, the request is answered with status 500
    and the detail ["Database error: "] followed by the first 120 characters
    of the error text, and the only logged call is the append: the mail
    helper is not called and no SMTP operation takes place. *)
Theorem C2_persistence_failure_is_500_without_mail
    (w : World) (body : gmap string json) (payload : ContactIn) (e : exn) :
  ContactIn_validate w body = Some payload →
  create_document w "contactmessage" (ContactDocument payload) = Raised e →
  post_contact w body =
    (JSONResponse 500
       {[ "detail" := VStr (lit "Database error: " ++ take 120 (exn_str e)) ]},
     [Call_create_document "contactmessage" (ContactDocument payload)])
  ∧ length (take 120 (exn_str e)) ≤ 120
  ∧ Forall (λ ev, is_mail ev = false) (snd (post_contact w body)).
Proof.
  intros Hv He.
  assert (Hrun : post_contact w body =
    (JSONResponse 500
       {[ "detail" := VStr (lit "Database error: " ++ take 120 (exn_str e)) ]},
     [Call_create_document "contactmessage" (ContactDocument payload)])).
  { unfold post_contact. rewrite Hv, submit_contact_run, He. reflexivity. }
  split; [exact Hrun|]. split.
  - rewrite length_take. lia.
  - rewrite Hrun. simpl. by repeat constructor.
Qed.

Lemma C2_persistence_failure_is_500_without_mail_witness :
  post_contact Sample.store_down (Sample.ada_body None (lit "Ada") (lit "Hello")) =
    (JSONResponse 500
       {[ "detail" := VStr (lit "Database error: "
                            ++ take 120 (lit "Database not available")) ]},
     [Call_create_document "contactmessage"
        (ContactDocument {| name := lit "Ada"; email := Sample.ada;
                            subject := None; message := lit "Hello" |})])
  ∧ length (take 120 (lit "Database not available")) ≤ 120
  ∧ Forall (λ ev, is_mail ev = false)
      (snd (post_contact Sample.store_down
              (Sample.ada_body None (lit "Ada") (lit "Hello")))).
Proof.
  apply (C2_persistence_failure_is_500_without_mail Sample.store_down
           (Sample.ada_body None (lit "Ada") (lit "Hello"))
           {| name := lit "Ada"; email := Sample.ada;
              subject := None; message := lit "Hello" |}
           (Sample.Exception (lit "Database not available")));
    vm_compute; reflexivity.
Defined.

(** C3: when the store append returns and the mail helper does anything but
    return [True] (it returns [False], as it does when mail is not
    configured, or it raises), the request is answered with status 200 and
    exactly [{ok: true, email_sent: false}]. *)
Theorem C3_notification_failure_never_fails_request
    (w : World) (body : gmap string json) (payload : ContactIn) :
  ContactIn_validate w body = Some payload →
  create_document w "contactmessage" (ContactDocument payload) = Returned tt →
  fst (send_email_via_smtp w (name payload) (email payload)
         (notification_subject payload) (message payload) []) ≠ Returned true →
  fst (post_contact w body) =
    JSONResponse 200 {[ "ok" := VBool true; "email_sent" := VBool false ]}.
Proof.
  intros Hv Hdb Hmail.
  unfold post_contact. rewrite Hv, submit_contact_run, Hdb. cbv zeta.
  destruct (send_email_via_smtp w _ _ _ _ []) as [[[]|e] t]; simpl in *;
    [congruence|reflexivity|reflexivity].
Qed.

Lemma C3_notification_failure_never_fails_request_witness :
  fst (post_contact Sample.bad_login (Sample.ada_body None (lit "Ada") (lit "Hello"))) =
    JSONResponse 200 {[ "ok" := VBool true; "email_sent" := VBool false ]}.
Proof.
  apply (C3_notification_failure_never_fails_request Sample.bad_login
           (Sample.ada_body None (lit "Ada") (lit "Hello"))
           {| name := lit "Ada"; email := Sample.ada;
              subject := None; message := lit "Hello" |}).
  - vm_compute; reflexivity.
  - vm_compute; reflexivity.
  - vm_compute. discriminate.
Defined.

(** C4: when the store append returns and the mail helper returns [True],
    the request is answered with status 200 and exactly
    [{ok: true, email_sent: true}]. *)
Theorem C4_both_succeed
    (w : World) (body : gmap string json) (payload : ContactIn) :
  ContactIn_validate w body = Some payload →
  create_document w "contactmessage" (ContactDocument payload) = Returned tt →
  fst (send_email_via_smtp w (name payload) (email payload)
         (notification_subject payload) (message payload) []) = Returned true →
  fst (post_contact w body) =
    JSONResponse 200 {[ "ok" := VBool true; "email_sent" := VBool true ]}.
Proof.
  intros Hv Hdb Hmail.
  unfold post_contact. rewrite Hv, submit_contact_run, Hdb. cbv zeta.
  destruct (send_email_via_smtp w _ _ _ _ []) as [r t]; simpl in *.
  by rewrite Hmail.
Qed.

Lemma C4_both_succeed_witness :
  fst (post_contact Sample.configured (Sample.ada_body None (lit "Ada") (lit "Hello"))) =
    JSONResponse 200 {[ "ok" := VBool true; "email_sent" := VBool true ]}.
Proof.
  apply (C4_both_succeed Sample.configured
           (Sample.ada_body None (lit "Ada") (lit "Hello"))
           {| name := lit "Ada"; email := Sample.ada;
              subject := None; message := lit "Hello" |});
    vm_compute; reflexivity.
Defined.

(** C5: in the log of any request, every mail event (the call of the mail
    helper or an SMTP operation) comes after the call of the store append,
    which is the first entry of the log, and that append returned: a write
    that failed is followed by no mail event. *)
Theorem C5_persistence_precedes_notification
    (w : World) (body : gmap string json) (i : nat) (ev : event) :
  snd (post_contact w body) !! i = Some ev →
  is_mail ev = true →
  0 < i
  ∧ ∃ doc, snd (post_contact w body) !! 0 = Some (Call_create_document "contactmessage" doc)
           ∧ create_document w "contactmessage" doc = Returned tt.
Proof.
  unfold post_contact.
  destruct (ContactIn_validate w body) as [payload|]; [|by intros [=]].
  rewrite submit_contact_run. cbv zeta.
  destruct (create_document w "contactmessage" (ContactDocument payload)) as [[]|e] eqn:Hdb;
    simpl; intros Hi Hev.
  - destruct i as [|i]; simpl in Hi.
    + injection Hi as <-. discriminate Hev.
    + split; [lia|]. by exists (ContactDocument payload).
  - destruct i as [|i]; simpl in Hi; [|done].
    injection Hi as <-. discriminate Hev.
Qed.

Lemma C5_persistence_precedes_notification_witness :
  0 < 1
  ∧ ∃ doc, snd (post_contact Sample.configured
                  (Sample.ada_body None (lit "Ada") (lit "Hello"))) !! 0
           = Some (Call_create_document "contactmessage" doc)
           ∧ create_document Sample.configured "contactmessage" doc = Returned tt.
Proof.
  apply (C5_persistence_precedes_notification Sample.configured
           (Sample.ada_body None (lit "Ada") (lit "Hello")) 1
           (Call_send_email_via_smtp (lit "Ada") Sample.ada
              (lit "Portfolio Contact") (lit "Hello")));
    vm_compute; reflexivity.
Defined.

(** ** The configuration gate *)

Lemma send_email_gate w n e s m :
  smtp_configured w = false →
  send_email_via_smtp w n e s m [] =
    (match py_int w (getenv_str w "SMTP_PORT" (lit "587")) with
     | Returned _ => Returned false
     | Raised err => Raised err
     end,
     [Call_send_email_via_smtp n e s m]).
Proof.
  unfold smtp_configured, truthy, send_email_via_smtp, bind, tell, lift, modify, ret.
  intros H. simpl.
  destruct (py_int _); [|reflexivity].
  repeat case_match; simplify_eq/=; reflexivity.
Qed.

(** [int] does not skip the separators U+001C to U+001F, and it reads the
    decimal digits of other scripts. *)
Example int_rejects_unit_separator :
  py_int Sample.plain ([31%N] ++ lit "587")
  = Raised (ValueError (lit "invalid literal for int() with base 10: '"
                        ++ [31%N] ++ lit "587'")).
Proof. vm_compute; reflexivity. Qed.

Example int_reads_fullwidth_digits :
  py_int Sample.plain [160%N; 65301%N; 65304%N; 65303%N; 10%N] = Returned 587%Z.
Proof. vm_compute; reflexivity. Qed.




(** ** What is stored and what is sent *)

(** Every message that the helper hands to [sendmail] is the rendering of a
    message whose [Subject] header is the subject argument, or the helper's
    own default when that argument is empty. *)
Lemma send_email_sendmail w n e s m from_addr to_addrs text :
  SMTP_sendmail from_addr to_addrs text ∈ snd (send_email_via_smtp w n e s m []) →
  ∃ msg, as_string w msg = Returned text
         ∧ header "Subject" msg
           = Some (or_else (Some s) (lit "New Portfolio Contact Message")).
Proof.
  unfold send_email_via_smtp, with_SMTP, bind, tell, lift, modify, ret. simpl.
  repeat (case_match; simplify_eq/=);
    rewrite ?elem_of_cons, ?elem_of_nil; intros Hin;
    repeat (destruct Hin as [Hin|Hin]; simplify_eq/=); try done;
    eexists; (split; [eassumption|reflexivity]).
Qed.

(** The [subject] of a validated payload, from the body. *)
Lemma validated_subject w body payload :
  ContactIn_validate w body = Some payload →
  (lacks body "subject" → subject payload = None)
  ∧ (∀ s, body !! "subject" = Some (JString s) → subject payload = Some s).
Proof.
  intros Hv.
  assert (Hsub : optional_str w body "subject" = Some (subject payload)).
  { unfold ContactIn_validate in Hv. repeat case_match; simplify_eq/=. done. }
  unfold optional_str, lacks in *. split.
  - intros [Hl|Hl]; rewrite Hl in Hsub; by injection Hsub.
  - intros s Hs. rewrite Hs in Hsub. by injection Hsub.
Qed.

(** The log of an accepted request: the store call, then, when the store
    returned, the log of the mail helper. *)
Lemma post_contact_log w body payload :
  ContactIn_validate w body = Some payload →
  snd (post_contact w body) =
    Call_create_document "contactmessage" (ContactDocument payload)
    :: match create_document w "contactmessage" (ContactDocument payload) with
       | Returned _ =>
           snd (send_email_via_smtp w (name payload) (email payload)
                  (notification_subject payload) (message payload) [])
       | Raised _ => []
       end.
Proof.
  intros Hv. unfold post_contact. rewrite Hv, submit_contact_run. cbv zeta.
  by destruct (create_document w "contactmessage" (ContactDocument payload)).
Qed.

Lemma ContactDocument_subject payload :
  ContactDocument payload !! "subject" = Some (opt_val (subject payload)).
Proof. unfold ContactDocument. by simplify_map_eq. Qed.

(** C7: for an accepted request, the document handed to the store is the
    first entry of the log and the only store call; its [subject] is the
    submitted one, [None] when the body has no subject; the default text
    appears only as the subject argument of the mail helper. *)
Theorem C7_document_keeps_submitted_subject
    (w : World) (body : gmap string json) (payload : ContactIn) :
  ContactIn_validate w body = Some payload →
  ∃ doc rest,
    snd (post_contact w body) = Call_create_document "contactmessage" doc :: rest
    ∧ Forall (λ ev, is_mail ev = true) rest
    ∧ (lacks body "subject" → doc !! "subject" = Some VNone)
    ∧ (∀ s, body !! "subject" = Some (JString s) → doc !! "subject" = Some (VStr s))
    ∧ (∀ n e s m, Call_send_email_via_smtp n e s m ∈ rest →
         s = or_else (subject payload) (lit "Portfolio Contact")).
Proof.
  intros Hv. destruct (validated_subject w body payload Hv) as [Habsent Hstring].
  eexists _, _. split; [by apply post_contact_log|].
  destruct (send_email_log w (name payload) (email payload)
              (notification_subject payload) (message payload)) as (rest & Hlog & Hnet).
  repeat split.
  - destruct (create_document w _ _); [|constructor].
    rewrite Hlog. constructor; [reflexivity|].
    eapply Forall_impl; [exact Hnet|]. by intros [] ?.
  - intros Hl. by rewrite ContactDocument_subject, (Habsent Hl).
  - intros s Hs. by rewrite ContactDocument_subject, (Hstring s Hs).
  - intros n e s m Hin.
    destruct (create_document w _ _); [|by apply elem_of_nil in Hin].
    rewrite Hlog in Hin. apply elem_of_cons in Hin as [Heq|Hin]; [by simplify_eq|].
    rewrite Forall_forall in Hnet. apply Hnet in Hin. discriminate Hin.
Qed.

Lemma C7_document_keeps_submitted_subject_witness :
  ∃ doc rest,
    snd (post_contact Sample.plain (Sample.ada_body None (lit "Ada") (lit "Hello")))
    = Call_create_document "contactmessage" doc :: rest
    ∧ Forall (λ ev, is_mail ev = true) rest
    ∧ (lacks (Sample.ada_body None (lit "Ada") (lit "Hello")) "subject" →
       doc !! "subject" = Some VNone)
    ∧ (∀ s, Sample.ada_body None (lit "Ada") (lit "Hello") !! "subject" = Some (JString s) →
       doc !! "subject" = Some (VStr s))
    ∧ (∀ n e s m, Call_send_email_via_smtp n e s m ∈ rest →
         s = or_else None (lit "Portfolio Contact")).
Proof.
  apply (C7_document_keeps_submitted_subject Sample.plain
           (Sample.ada_body None (lit "Ada") (lit "Hello"))
           {| name := lit "Ada"; email := Sample.ada;
              subject := None; message := lit "Hello" |}).
  vm_compute; reflexivity.
Defined.

(** The fifth scenario of the specification: [subject: null] with mail not
    configured. *)
Example scenario_null_subject :
  post_contact Sample.plain (Sample.ada_body (Some JNull) (lit "Ada") (lit "Hello")) =
    (JSONResponse 200 {[ "ok" := VBool true; "email_sent" := VBool false ]},
     [Call_create_document "contactmessage"
        {[ "name" := VStr (lit "Ada"); "email" := VStr Sample.ada;
           "subject" := VNone; "message" := VStr (lit "Hello") ]};
      Call_send_email_via_smtp (lit "Ada") Sample.ada
        (lit "Portfolio Contact") (lit "Hello")]).
Proof. vm_compute; reflexivity. Qed.

(** C9: a dictionary that the handler returns has [ok] equal to [True]: it is
    [{ok: true, email_sent: sent}] for some [sent], and the store append of
    that request has returned.  (Otherwise the handler raises.) *)
Theorem C9_returned_result_has_ok_true
    (w : World) (payload : ContactIn) (content : dict) (tr : log) :
  submit_contact w payload [] = (Returned content, tr) →
  content !! "ok" = Some (VBool true)
  ∧ content !! "ok" ≠ Some (VBool false)
  ∧ (∃ sent, content = {[ "ok" := VBool true; "email_sent" := VBool sent ]})
  ∧ tr !! 0 = Some (Call_create_document "contactmessage" (ContactDocument payload))
  ∧ create_document w "contactmessage" (ContactDocument payload) = Returned tt.
Proof.
  rewrite submit_contact_run. cbv zeta.
  destruct (create_document w "contactmessage" (ContactDocument payload)) as [[]|e];
    [|by intros [=]].
  intros [= <- <-].
  assert (Hok : ({[ "ok" := VBool true;
                    "email_sent" := VBool (sent_flag (fst (send_email_via_smtp w
                       (name payload) (email payload) (notification_subject payload)
                       (message payload) []))) ]} : dict) !! "ok" = Some (VBool true))
    by apply lookup_insert_eq.
  split; [exact Hok|]. split; [by rewrite Hok|]. split; [by eexists|].
  split; reflexivity.
Qed.

Lemma C9_returned_result_has_ok_true_witness :
  let payload := {| name := lit "Ada"; email := Sample.ada;
                    subject := None; message := lit "Hello" |} in
  let content : dict := {[ "ok" := VBool true; "email_sent" := VBool false ]} in
  content !! "ok" = Some (VBool true)
  ∧ content !! "ok" ≠ Some (VBool false)
  ∧ (∃ sent, content = {[ "ok" := VBool true; "email_sent" := VBool sent ]})
  ∧ [Call_create_document "contactmessage" (ContactDocument payload);
     Call_send_email_via_smtp (lit "Ada") Sample.ada
       (lit "Portfolio Contact") (lit "Hello")] !! 0
    = Some (Call_create_document "contactmessage" (ContactDocument payload))
  ∧ create_document Sample.plain "contactmessage" (ContactDocument payload) = Returned tt.
Proof.
  apply (C9_returned_result_has_ok_true Sample.plain).
  vm_compute; reflexivity.
Defined.

(** The run of the helper when mail is configured and every call returns. *)
Lemma send_email_success_run
    (w : World) (n e s m host user password to_email from text : pystr) (port : Z) :
  smtp_settings w = Some (host, user, password, to_email) →
  py_int w (getenv_str w "SMTP_PORT" (lit "587")) = Returned port →
  MIMEText_init w (mail_text n e m) = Returned tt →
  formataddr w n user = Returned from →
  smtp_connect w host port = Returned tt →
  smtp_starttls w = Returned tt →
  smtp_login w user password = Returned tt →
  as_string w (mail_message n e s m from to_email) = Returned text →
  smtp_sendmail w user [to_email] text = Returned tt →
  smtp_exit w = Returned tt →
  send_email_via_smtp w n e s m [] =
    (Returned true,
     [Call_send_email_via_smtp n e s m; SMTP_connect host port; SMTP_starttls;
      SMTP_login user password; SMTP_sendmail user [to_email] text; SMTP_exit]).
Proof.
  unfold mail_message, mail_text.
  intros Hset Hport Hinit Hfrom Hconn Htls Hlogin Htext Hsend Hexit.
  revert Hset.
  unfold send_email_via_smtp, with_SMTP, smtp_settings, bind, tell, lift, modify, ret.
  rewrite Hport.
  repeat case_match; intros; simplify_eq;
    repeat match goal with
           | H1 : ?call = _, H2 : ?call = _ |- _ => rewrite H1 in H2; simplify_eq
           end; reflexivity.
Qed.

(** C10: when the submitted subject is the empty string, the stored document
    has the empty string as its [subject], and the notification carries the
    default subject ["Portfolio Contact"]: once the store has returned, the
    mail helper is called with it, every message handed to [sendmail] has it
    as its [Subject] header, and when mail is configured and every call
    returns, such a message is handed to [sendmail] and the answer is
    [{ok: true, email_sent: true}]. *)
Theorem C10_empty_subject_stored_verbatim_defaulted_in_mail
    (w : World) (body : gmap string json) (payload : ContactIn) :
  ContactIn_validate w body = Some payload →
  body !! "subject" = Some (JString []) →
  ∃ doc rest,
    snd (post_contact w body) = Call_create_document "contactmessage" doc :: rest
    ∧ doc !! "subject" = Some (VStr [])
    ∧ (create_document w "contactmessage" doc = Returned tt →
       rest !! 0 = Some (Call_send_email_via_smtp (name payload) (email payload)
                           (lit "Portfolio Contact") (message payload)))
    ∧ (∀ from_addr to_addrs text,
         SMTP_sendmail from_addr to_addrs text ∈ rest →
         ∃ msg, as_string w msg = Returned text
                ∧ header "Subject" msg = Some (lit "Portfolio Contact"))
    ∧ (∀ host user password to_email port from text,
         create_document w "contactmessage" doc = Returned tt →
         smtp_settings w = Some (host, user, password, to_email) →
         py_int w (getenv_str w "SMTP_PORT" (lit "587")) = Returned port →
         MIMEText_init w (mail_text (name payload) (email payload) (message payload))
           = Returned tt →
         formataddr w (name payload) user = Returned from →
         smtp_connect w host port = Returned tt →
         smtp_starttls w = Returned tt →
         smtp_login w user password = Returned tt →
         as_string w (mail_message (name payload) (email payload)
                        (lit "Portfolio Contact") (message payload) from to_email)
           = Returned text →
         smtp_sendmail w user [to_email] text = Returned tt →
         smtp_exit w = Returned tt →
         rest = [Call_send_email_via_smtp (name payload) (email payload)
                   (lit "Portfolio Contact") (message payload);
                 SMTP_connect host port; SMTP_starttls; SMTP_login user password;
                 SMTP_sendmail user [to_email] text; SMTP_exit]
         ∧ header "Subject" (mail_message (name payload) (email payload)
                               (lit "Portfolio Contact") (message payload) from to_email)
           = Some (lit "Portfolio Contact")
         ∧ fst (post_contact w body)
           = JSONResponse 200 {[ "ok" := VBool true; "email_sent" := VBool true ]}).
Proof.
  intros Hv Hs. destruct (validated_subject w body payload Hv) as [_ Hstring].
  specialize (Hstring [] Hs).
  assert (Hsubj : notification_subject payload = lit "Portfolio Contact")
    by (unfold notification_subject; by rewrite Hstring).
  eexists _, _. split; [by apply post_contact_log|].
  split; [by rewrite ContactDocument_subject, Hstring|].
  split; [|split].
  - intros ->. rewrite Hsubj.
    by destruct (send_email_log w (name payload) (email payload)
                   (lit "Portfolio Contact") (message payload)) as (rest & -> & _).
  - intros from_addr to_addrs text Hin. rewrite Hsubj in Hin.
    destruct (create_document w _ _); [|by apply elem_of_nil in Hin].
    by apply send_email_sendmail in Hin.
  - intros host user password to_email port from text
      Hdb Hset Hport Hinit Hfrom Hconn Htls Hlogin Htext Hsend Hexit.
    pose proof (send_email_success_run w (name payload) (email payload)
                  (lit "Portfolio Contact") (message payload)
                  host user password to_email from text port
                  Hset Hport Hinit Hfrom Hconn Htls Hlogin Htext Hsend Hexit) as Hrun.
    rewrite Hdb, Hsubj, Hrun. split; [reflexivity|]. split; [reflexivity|].
    unfold post_contact. rewrite Hv, submit_contact_run, Hdb, Hsubj, Hrun. reflexivity.
Qed.

Lemma C10_empty_subject_stored_verbatim_defaulted_in_mail_witness :
  let body := Sample.ada_body (Some (JString [])) (lit "Ada") (lit "Hello") in
  let msg := mail_message (lit "Ada") Sample.ada (lit "Portfolio Contact") (lit "Hello")
               (lit "Ada <me@example.com>") (lit "me@example.com") in
  ∃ doc rest,
    snd (post_contact Sample.configured body)
    = Call_create_document "contactmessage" doc :: rest
    ∧ doc !! "subject" = Some (VStr [])
    ∧ rest = [Call_send_email_via_smtp (lit "Ada") Sample.ada
                (lit "Portfolio Contact") (lit "Hello");
              SMTP_connect (lit "smtp.example.com") 587; SMTP_starttls;
              SMTP_login (lit "me@example.com") (lit "secret");
              SMTP_sendmail (lit "me@example.com") [lit "me@example.com"]
                (Sample.render msg);
              SMTP_exit]
    ∧ header "Subject" msg = Some (lit "Portfolio Contact")
    ∧ fst (post_contact Sample.configured body)
      = JSONResponse 200 {[ "ok" := VBool true; "email_sent" := VBool true ]}.
Proof.
  cbv zeta.
  destruct (C10_empty_subject_stored_verbatim_defaulted_in_mail Sample.configured
              (Sample.ada_body (Some (JString [])) (lit "Ada") (lit "Hello"))
              {| name := lit "Ada"; email := Sample.ada;
                 subject := Some []; message := lit "Hello" |})
    as (doc & rest & Hlog & Hdoc & _ & _ & Hsent).
  - vm_compute; reflexivity.
  - vm_compute; reflexivity.
  - exists doc, rest. split; [exact Hlog|]. split; [exact Hdoc|].
    apply (Hsent (lit "smtp.example.com") (lit "me@example.com") (lit "secret")
             (lit "me@example.com") 587%Z (lit "Ada <me@example.com>"));
      vm_compute; reflexivity.
Defined.

(** ** The database probe *)

Lemma dom_test_database_response : dom test_database_response = envelope.
Proof.
  unfold test_database_response, envelope.
  rewrite !dom_insert_L, dom_singleton_L. set_solver.
Qed.

(** C8: for every world (whatever the import of [db], the attribute access
    and the listing of collections do) the handler of [GET /test] returns, the
    request is answered with status 200, and the body has exactly the six
    keys of the envelope, strings in the status fields and a list under
    [collections]; an exception of the import, of the attribute access or of
    the listing shows as the text of the [database] field, cut at 50
    characters. *)
Theorem C8_test_endpoint_always_200 (w : World) :
  ∃ content, fst (test_database w test_database_response) = Returned content
             ∧ get_test w = JSONResponse 200 content
             ∧ well_shaped content
             ∧ renders_failures w content.
Proof.
  unfold get_test, test_database, try_except, bind, lift, setitem, modify.
  destruct (import_db w) as [[db|]|e] eqn:Himport; simpl;
    [destruct (db_name db) as [nm|e] eqn:Hname; simpl;
       [destruct (list_collection_names db) as [cs|e] eqn:Hlist; simpl|]
    | |];
    try destruct (exn_is_import_error e) eqn:Himp;
    (eexists; split; [reflexivity|]); (split; [reflexivity|]);
    (split;
     [ split;
       [ rewrite !dom_insert_L, dom_test_database_response; unfold envelope; set_solver
       | unfold is_str, is_list, test_database_response;
         repeat split; simplify_map_eq; eauto ]
     | unfold renders_failures; repeat split; intros; same_call;
       rewrite ?Himp; by simplify_map_eq ]).
Qed.

(** The store is reachable but listing the collections fails: the probe still
    answers 200 and reports the error in the [database] field. *)
Example probe_with_failing_listing :
  let db := {| db_name := Returned (Some (VStr (lit "portfolio")));
               list_collection_names :=
                 Raised (Sample.Exception (lit "connection refused")) |} in
  let w := {| environ := {[ "DATABASE_URL" := lit "mongodb://localhost" ]};
              unicode_isspace := unicode_isspace Sample.plain;
              unicode_decimal := unicode_decimal Sample.plain;
              str_coerce := str_coerce Sample.plain;
              validate_email := validate_email Sample.plain;
              create_document := create_document Sample.plain;
              import_db := Returned (Some db);
              MIMEText_init := MIMEText_init Sample.plain;
              formataddr := formataddr Sample.plain;
              as_string := as_string Sample.plain;
              smtp_connect := smtp_connect Sample.plain;
              smtp_starttls := smtp_starttls Sample.plain;
              smtp_login := smtp_login Sample.plain;
              smtp_sendmail := smtp_sendmail Sample.plain;
              smtp_exit := smtp_exit Sample.plain;
              import_uvicorn := import_uvicorn Sample.plain;
              uvicorn_run := uvicorn_run Sample.plain |} in
  get_test w =
    JSONResponse 200
      {[ "backend" := VStr (check_mark ++ lit " Running");
         "database" := VStr (warning_sign
                             ++ lit "  Connected but Error: connection refused");
         "database_url" := VStr (check_mark ++ lit " Set");
         "database_name" := VStr (cross_mark ++ lit " Not Set");
         "connection_status" := VStr (lit "Connected");
         "collections" := VList [] ]}.
Proof. vm_compute; reflexivity. Qed.
(** ** The contact route as a whole *)

(** X1: the answer of [POST /contact] has one of three status codes, and each
    tells what happened: 422 exactly when the body does not validate, 500
    exactly when it validates and the store append raises, 200 exactly when
    it validates and the store append returns. *)
Theorem post_contact_status (w : World) (body : gmap string json) :
  (status_of (fst (post_contact w body)) = 422%Z
   ∧ ContactIn_validate w body = None)
  ∨ (∃ payload e,
       status_of (fst (post_contact w body)) = 500%Z
       ∧ ContactIn_validate w body = Some payload
       ∧ create_document w "contactmessage" (ContactDocument payload) = Raised e)
  ∨ (∃ payload,
       status_of (fst (post_contact w body)) = 200%Z
       ∧ ContactIn_validate w body = Some payload
       ∧ create_document w "contactmessage" (ContactDocument payload) = Returned tt).
Proof.
  unfold post_contact.
  destruct (ContactIn_validate w body) as [payload|]; [|by left].
  right. rewrite submit_contact_run. cbv zeta.
  destruct (create_document w "contactmessage" (ContactDocument payload)) as [[]|e] eqn:Hdb.
  - right. by exists payload.
  - left. by exists payload, e.
Qed.

(** X2: the detail of a 500 answer is short whatever the store error says: it
    starts with ["Database error: "] and has at most 136 characters. *)
Theorem post_contact_500_detail_is_capped
    (w : World) (body : gmap string json) (content : dict) (tr : list event) :
  post_contact w body = (JSONResponse 500 content, tr) →
  ∃ s, content = {[ "detail" := VStr s ]}
       ∧ take 16 s = lit "Database error: "
       ∧ length s ≤ 136.
Proof.
  unfold post_contact.
  destruct (ContactIn_validate w body) as [payload|]; [|by intros [=]].
  rewrite submit_contact_run. cbv zeta.
  destruct (create_document w "contactmessage" (ContactDocument payload)) as [[]|e];
    [by intros [=]|].
  intros [= <- <-]. eexists. split; [reflexivity|]. split.
  - reflexivity.
  - simpl. rewrite length_take. lia.
Qed.

Lemma post_contact_500_detail_is_capped_witness :
  ∃ s, ({[ "detail" := VStr (lit "Database error: Database not available") ]} : dict)
       = {[ "detail" := VStr s ]}
       ∧ take 16 s = lit "Database error: "
       ∧ length s ≤ 136.
Proof.
  apply (post_contact_500_detail_is_capped Sample.store_down
           (Sample.ada_body None (lit "Ada") (lit "Hello")) _
           [Call_create_document "contactmessage"
              (ContactDocument {| name := lit "Ada"; email := Sample.ada;
                                  subject := None; message := lit "Hello" |})]).
  vm_compute; reflexivity.
Defined.

(** ** More on validation *)

Lemma ContactIn_validate_ext (w : World) (body body' : gmap string json) :
  (∀ key, key ∈ contact_fields → body' !! key = body !! key) →
  ContactIn_validate w body' = ContactIn_validate w body.
Proof.
  intros H. unfold ContactIn_validate, required_email, required_str, optional_str.
  rewrite !H by (unfold contact_fields; set_solver). reflexivity.
Qed.

Lemma post_contact_ext (w : World) (body body' : gmap string json) :
  (∀ key, key ∈ contact_fields → body' !! key = body !! key) →
  post_contact w body' = post_contact w body.
Proof. intros H. unfold post_contact. by rewrite (ContactIn_validate_ext w body body' H). Qed.

(** X3: a key of the body that [ContactIn] does not declare is ignored: the
    answer and the log are those of the body without it. *)
Theorem post_contact_ignores_undeclared_keys
    (w : World) (body : gmap string json) (key : string) (v : json) :
  key ∉ contact_fields →
  post_contact w (<[key := v]> body) = post_contact w body.
Proof.
  intros Hkey. apply post_contact_ext. intros k Hk.
  apply lookup_insert_ne. intros ->. done.
Qed.

Lemma post_contact_ignores_undeclared_keys_witness :
  post_contact Sample.plain
    (<["phone" := JString (lit "555")]> (Sample.ada_body None (lit "Ada") (lit "Hello")))
  = post_contact Sample.plain (Sample.ada_body None (lit "Ada") (lit "Hello")).
Proof.
  apply post_contact_ignores_undeclared_keys.
  match goal with |- ?P => apply (bool_decide_unpack P) end; vm_compute; exact I.
Defined.

(** X4: a [subject] that is [null] is the same request as no [subject] at
    all. *)
Theorem post_contact_null_subject_is_absent
    (w : World) (body : gmap string json) :
  post_contact w (<["subject" := JNull]> body) = post_contact w (delete "subject" body).
Proof.
  unfold post_contact, ContactIn_validate, required_email, required_str, optional_str.
  rewrite lookup_insert_eq, lookup_delete_eq.
  rewrite !lookup_insert_ne, !lookup_delete_ne by done. reflexivity.
Qed.

(** X5: a declared field whose value is neither a string nor [null] and
    that pydantic does not convert to a string is a validation error, also
    for the optional [subject]: the answer is 422 and nothing is logged. *)
Theorem post_contact_rejects_unconvertible_field
    (w : World) (body : gmap string json) (key : string) (v : json) :
  key ∈ contact_fields →
  body !! key = Some v →
  v ≠ JNull →
  (∀ s, v ≠ JString s) →
  str_coerce w v = None →
  post_contact w body = (RequestValidationError, []).
Proof.
  intros Hkey Hv Hnull Hstr Hco.
  assert (Hsv : str_validator w v = None).
  { destruct v; simpl; try done. by destruct (Hstr s). }
  assert (Hval : ContactIn_validate w body = None).
  { unfold ContactIn_validate, required_email, required_str, optional_str.
    unfold contact_fields in Hkey.
    apply elem_of_union in Hkey as [[[Hkey|Hkey]%elem_of_union|Hkey]%elem_of_union|Hkey];
      apply elem_of_singleton in Hkey; subst key; rewrite Hv;
      destruct v; try done; rewrite ?Hsv; repeat case_match; try done;
      by destruct (Hstr s). }
  unfold post_contact. by rewrite Hval.
Qed.

Lemma post_contact_rejects_unconvertible_field_witness :
  post_contact Sample.plain
    (Sample.ada_body (Some (JNumber (lit "5"))) (lit "Ada") (lit "Hello"))
  = (RequestValidationError, []).
Proof.
  apply (post_contact_rejects_unconvertible_field Sample.plain _ "subject"
           (JNumber (lit "5"))).
  - match goal with |- ?P => apply (bool_decide_unpack P) end; vm_compute; exact I.
  - vm_compute; reflexivity.
  - discriminate.
  - discriminate.
  - reflexivity.
Defined.

(** X6: the stored document has exactly the four fields of the model; [name]
    and [message] are the submitted strings, [email] is the address as the
    address check returned it, and the mail helper is called with the same
    name, address and message. *)
Theorem stored_document_is_the_submission
    (w : World) (body : gmap string json) (payload : ContactIn) :
  ContactIn_validate w body = Some payload →
  ∃ doc rest,
    snd (post_contact w body) = Call_create_document "contactmessage" doc :: rest
    ∧ dom doc = contact_fields
    ∧ (∀ s, body !! "name" = Some (JString s) → doc !! "name" = Some (VStr s))
    ∧ (∀ s, body !! "message" = Some (JString s) → doc !! "message" = Some (VStr s))
    ∧ (∀ s, body !! "email" = Some (JString s) →
         ∃ a, validate_email w s = Some a ∧ doc !! "email" = Some (VStr a))
    ∧ (∀ n e s m, Call_send_email_via_smtp n e s m ∈ rest →
         doc !! "name" = Some (VStr n) ∧ doc !! "email" = Some (VStr e)
         ∧ doc !! "message" = Some (VStr m)).
Proof.
  intros Hv. eexists _, _. split; [by apply post_contact_log|].
  assert (Hfields : required_str w body "name" = Some (name payload)
                    ∧ required_email w body "email" = Some (email payload)
                    ∧ required_str w body "message" = Some (message payload)).
  { unfold ContactIn_validate in Hv. repeat case_match; simplify_eq/=. done. }
  destruct Hfields as (Hn & He & Hm).
  unfold required_email, required_str in *.
  split; [|split; [|split; [|split]]].
  - unfold ContactDocument, contact_fields.
    rewrite !dom_insert_L, dom_singleton_L. set_solver.
  - intros s Hs. rewrite Hs in Hn. simpl in Hn. injection Hn as ->.
    unfold ContactDocument. by simplify_map_eq.
  - intros s Hs. rewrite Hs in Hm. simpl in Hm. injection Hm as ->.
    unfold ContactDocument. by simplify_map_eq.
  - intros s Hs. rewrite Hs in He. simpl in He. exists (email payload).
    split; [done|]. unfold ContactDocument. by simplify_map_eq.
  - intros n e s m Hin.
    destruct (create_document w _ _); [|by apply elem_of_nil in Hin].
    destruct (send_email_log w (name payload) (email payload)
                (notification_subject payload) (message payload)) as (rest & Hlog & Hnet).
    rewrite Hlog in Hin. apply elem_of_cons in Hin as [Heq|Hin].
    + injection Heq as -> -> -> ->. unfold ContactDocument. by simplify_map_eq.
    + rewrite Forall_forall in Hnet. apply Hnet in Hin. discriminate Hin.
Qed.

Lemma stored_document_is_the_submission_witness :
  let body := Sample.ada_body None (lit "Ada") (lit "Hello") in
  ∃ doc rest,
    snd (post_contact Sample.plain body) = Call_create_document "contactmessage" doc :: rest
    ∧ dom doc = contact_fields
    ∧ (∀ s, body !! "name" = Some (JString s) → doc !! "name" = Some (VStr s))
    ∧ (∀ s, body !! "message" = Some (JString s) → doc !! "message" = Some (VStr s))
    ∧ (∀ s, body !! "email" = Some (JString s) →
         ∃ a, validate_email Sample.plain s = Some a ∧ doc !! "email" = Some (VStr a))
    ∧ (∀ n e s m, Call_send_email_via_smtp n e s m ∈ rest →
         doc !! "name" = Some (VStr n) ∧ doc !! "email" = Some (VStr e)
         ∧ doc !! "message" = Some (VStr m)).
Proof.
  apply (stored_document_is_the_submission Sample.plain
           (Sample.ada_body None (lit "Ada") (lit "Hello"))
           {| name := lit "Ada"; email := Sample.ada;
              subject := None; message := lit "Hello" |}).
  vm_compute; reflexivity.
Defined.

(** ** The SMTP session *)

Local Arguments lit : simpl never.

(** Unfolding the mail helper down to the outcomes of the external calls. *)
Ltac run_helper :=
  unfold send_email_via_smtp, with_SMTP, smtp_settings, bind, tell, lift, modify, ret;
  simpl.

(** X7: with mail configured, a port that parses and every library and network
    call returning, the helper returns [True] after exactly this session:
    connect to the host and port, STARTTLS, login with user and password, one
    [sendmail] from the user to the recipient, and the closing of the session. *)
Theorem send_email_success_path
    (w : World) (n e s m host user password to_email from text : pystr) (port : Z) :
  smtp_settings w = Some (host, user, password, to_email) →
  py_int w (getenv_str w "SMTP_PORT" (lit "587")) = Returned port →
  MIMEText_init w (mail_text n e m) = Returned tt →
  formataddr w n user = Returned from →
  smtp_connect w host port = Returned tt →
  smtp_starttls w = Returned tt →
  smtp_login w user password = Returned tt →
  as_string w (mail_message n e s m from to_email) = Returned text →
  smtp_sendmail w user [to_email] text = Returned tt →
  smtp_exit w = Returned tt →
  send_email_via_smtp w n e s m [] =
    (Returned true,
     [Call_send_email_via_smtp n e s m; SMTP_connect host port; SMTP_starttls;
      SMTP_login user password; SMTP_sendmail user [to_email] text; SMTP_exit]).
Proof.
  unfold mail_message, mail_text.
  intros Hset Hport Hinit Hfrom Hconn Htls Hlogin Htext Hsend Hexit.
  revert Hset. run_helper. rewrite Hport.
  repeat case_match; intros; simplify_eq/=;
    repeat match goal with
           | H1 : ?call = _, H2 : ?call = _ |- _ => rewrite H1 in H2; simplify_eq/=
           end; reflexivity.
Qed.

Lemma send_email_success_path_witness :
  ∃ text,
    send_email_via_smtp Sample.configured (lit "Ada") Sample.ada
      (lit "Portfolio Contact") (lit "Hello") [] =
      (Returned true,
       [Call_send_email_via_smtp (lit "Ada") Sample.ada (lit "Portfolio Contact") (lit "Hello");
        SMTP_connect (lit "smtp.example.com") 587; SMTP_starttls;
        SMTP_login (lit "me@example.com") (lit "secret");
        SMTP_sendmail (lit "me@example.com") [lit "me@example.com"] text; SMTP_exit]).
Proof.
  eexists.
  apply (send_email_success_path Sample.configured (lit "Ada") Sample.ada
           (lit "Portfolio Contact") (lit "Hello")
           (lit "smtp.example.com") (lit "me@example.com") (lit "secret")
           (lit "me@example.com") (lit "Ada <me@example.com>"));
    vm_compute; reflexivity.
Defined.

(** A [True] of the helper, read backwards. *)
Lemma send_email_true_inv
    (w : World) (n e s m : pystr) (tr : list event) :
  send_email_via_smtp w n e s m [] = (Returned true, tr) →
  ∃ host user password to_email port text,
    smtp_settings w = Some (host, user, password, to_email)
    ∧ tr = [Call_send_email_via_smtp n e s m; SMTP_connect host port; SMTP_starttls;
            SMTP_login user password; SMTP_sendmail user [to_email] text; SMTP_exit]
    ∧ smtp_connect w host port = Returned tt
    ∧ smtp_starttls w = Returned tt
    ∧ smtp_login w user password = Returned tt
    ∧ smtp_sendmail w user [to_email] text = Returned tt
    ∧ smtp_exit w = Returned tt.
Proof.
  run_helper.
  repeat (case_match; simplify_eq/=); intros; simplify_eq/=.
  repeat match goal with u : unit |- _ => destruct u end.
  eexists _, _, _, _, _, _. repeat split; eassumption.
Qed.


(** X8: the helper returns [True] only after a complete session: mail is
    configured, and the log is the call followed by connect, STARTTLS, login,
    one [sendmail] and the closing, each of which returned. *)
Theorem send_email_true_means_sent
    (w : World) (n e s m : pystr) (tr : list event) :
  send_email_via_smtp w n e s m [] = (Returned true, tr) →
  ∃ host user password to_email port text,
    smtp_settings w = Some (host, user, password, to_email)
    ∧ tr = [Call_send_email_via_smtp n e s m; SMTP_connect host port; SMTP_starttls;
            SMTP_login user password; SMTP_sendmail user [to_email] text; SMTP_exit]
    ∧ smtp_connect w host port = Returned tt
    ∧ smtp_starttls w = Returned tt
    ∧ smtp_login w user password = Returned tt
    ∧ smtp_sendmail w user [to_email] text = Returned tt
    ∧ smtp_exit w = Returned tt.
Proof. apply send_email_true_inv. Qed.

Lemma send_email_true_means_sent_witness :
  ∃ host user password to_email port text,
    smtp_settings Sample.configured = Some (host, user, password, to_email)
    ∧ snd (send_email_via_smtp Sample.configured (lit "Ada") Sample.ada
             (lit "Portfolio Contact") (lit "Hello") [])
      = [Call_send_email_via_smtp (lit "Ada") Sample.ada
           (lit "Portfolio Contact") (lit "Hello");
         SMTP_connect host port; SMTP_starttls;
         SMTP_login user password; SMTP_sendmail user [to_email] text; SMTP_exit]
    ∧ smtp_connect Sample.configured host port = Returned tt
    ∧ smtp_starttls Sample.configured = Returned tt
    ∧ smtp_login Sample.configured user password = Returned tt
    ∧ smtp_sendmail Sample.configured user [to_email] text = Returned tt
    ∧ smtp_exit Sample.configured = Returned tt.
Proof.
  apply (send_email_true_means_sent Sample.configured (lit "Ada") Sample.ada
           (lit "Portfolio Contact") (lit "Hello")).
  vm_compute; reflexivity.
Defined.

(** X9: the commands of a session are gated by the ones before: STARTTLS is
    only issued on a connection that was established, the credentials are
    only sent after STARTTLS returned, and [sendmail] is only called after
    the login returned. *)
Theorem smtp_commands_are_gated
    (w : World) (n e s m : pystr) :
  let tr := snd (send_email_via_smtp w n e s m []) in
  (SMTP_starttls ∈ tr → ∃ host port, tr !! 1 = Some (SMTP_connect host port)
                                     ∧ smtp_connect w host port = Returned tt)
  ∧ (∀ user password, SMTP_login user password ∈ tr →
       tr !! 2 = Some SMTP_starttls ∧ smtp_starttls w = Returned tt)
  ∧ (∀ from_addr to_addrs text, SMTP_sendmail from_addr to_addrs text ∈ tr →
       ∃ password, tr !! 3 = Some (SMTP_login from_addr password)
                   ∧ smtp_login w from_addr password = Returned tt).
Proof.
  cbv zeta. run_helper.
  repeat (case_match; simplify_eq/=);
    repeat match goal with u : unit |- _ => destruct u end;
    (split; [|split]); intros;
    repeat match goal with
           | H : _ ∈ _ :: _ |- _ => apply elem_of_cons in H as [H|H]; simplify_eq/=
           | H : _ ∈ [] |- _ => by apply elem_of_nil in H
           end;
    eauto.
Qed.

(** X10: a session that was opened is closed: when the connection was
    established the last entry of the log is the closing of the session,
    whatever failed in between; when the connection failed nothing follows
    the attempt. *)
Theorem smtp_session_is_closed
    (w : World) (n e s m host : pystr) (port : Z) :
  let tr := snd (send_email_via_smtp w n e s m []) in
  SMTP_connect host port ∈ tr →
  match smtp_connect w host port with
  | Returned _ => last tr = Some SMTP_exit
  | Raised _ => last tr = Some (SMTP_connect host port)
  end.
Proof.
  cbv zeta. run_helper.
  repeat (case_match; simplify_eq/=); intros Hin;
    repeat match goal with
           | H : _ ∈ _ :: _ |- _ => apply elem_of_cons in H as [H|H]; simplify_eq/=
           | H : _ ∈ [] |- _ => by apply elem_of_nil in H
           end;
    repeat match goal with
           | H1 : ?call = _, H2 : ?call = _ |- _ => rewrite H1 in H2; simplify_eq/=
           end;
    try reflexivity; try congruence.
Qed.

Lemma smtp_session_is_closed_witness :
  last (snd (send_email_via_smtp Sample.bad_login (lit "Ada") Sample.ada
               (lit "Portfolio Contact") (lit "Hello") []))
  = Some SMTP_exit.
Proof.
  apply (smtp_session_is_closed Sample.bad_login (lit "Ada") Sample.ada
           (lit "Portfolio Contact") (lit "Hello") (lit "smtp.example.com") 587).
  apply (list_elem_of_lookup_2 _ 1). vm_compute; reflexivity.
Defined.

(** X11: when the closing of the session raises, the helper does not return
    [True], even if [sendmail] had returned: an accepted request whose
    document was stored is answered [{ok: true, email_sent: false}] although
    the relay may have accepted the message. *)
Theorem smtp_exit_failure_is_reported_as_not_sent
    (w : World) (body : gmap string json) (payload : ContactIn) (err : exn) :
  smtp_exit w = Raised err →
  ContactIn_validate w body = Some payload →
  create_document w "contactmessage" (ContactDocument payload) = Returned tt →
  fst (send_email_via_smtp w (name payload) (email payload)
         (notification_subject payload) (message payload) []) ≠ Returned true
  ∧ fst (post_contact w body)
    = JSONResponse 200 {[ "ok" := VBool true; "email_sent" := VBool false ]}.
Proof.
  intros Hexit Hv Hdb.
  assert (Hne : fst (send_email_via_smtp w (name payload) (email payload)
                       (notification_subject payload) (message payload) [])
                ≠ Returned true).
  { intros Htrue.
    destruct (send_email_via_smtp w _ _ _ _ []) as [r tr] eqn:Hrun.
    simpl in Htrue. subst r.
    apply send_email_true_inv in Hrun as (?&?&?&?&?&?&_&_&_&_&_&_&Hok).
    congruence. }
  split; [exact Hne|].
  unfold post_contact. rewrite Hv, submit_contact_run, Hdb. cbv zeta.
  destruct (send_email_via_smtp w _ _ _ _ []) as [[[]|e] t]; simpl in *; done.
Qed.

Lemma smtp_exit_failure_is_reported_as_not_sent_witness :
  let payload := {| name := lit "Ada"; email := Sample.ada;
                    subject := None; message := lit "Hello" |} in
  fst (send_email_via_smtp Sample.bad_quit (name payload) (email payload)
         (notification_subject payload) (message payload) []) ≠ Returned true
  ∧ fst (post_contact Sample.bad_quit (Sample.ada_body None (lit "Ada") (lit "Hello")))
    = JSONResponse 200 {[ "ok" := VBool true; "email_sent" := VBool false ]}.
Proof.
  apply (smtp_exit_failure_is_reported_as_not_sent Sample.bad_quit
           (Sample.ada_body None (lit "Ada") (lit "Hello"))
           {| name := lit "Ada"; email := Sample.ada;
              subject := None; message := lit "Hello" |}
           {| exn_class := "SMTPResponseException";
              exn_is_import_error := false;
              exn_str := lit "(421, b'Service not available')" |});
    vm_compute; reflexivity.
Defined.

(** In that world the relay did accept the message. *)
Example message_accepted_before_failing_close :
  ∃ text,
    snd (post_contact Sample.bad_quit (Sample.ada_body None (lit "Ada") (lit "Hello"))) !! 5
    = Some (SMTP_sendmail (lit "me@example.com") [lit "me@example.com"] text)
    ∧ smtp_sendmail Sample.bad_quit (lit "me@example.com") [lit "me@example.com"] text
      = Returned tt.
Proof. eexists. split; vm_compute; reflexivity. Qed.

(** X12: what is handed to [sendmail]: the envelope sender is [SMTP_USER],
    the only recipient is [SMTP_TO] or, without it, the user; the text is the
    rendering of a plain UTF-8 message whose body holds name, address and
    message verbatim and whose headers are the three of the constructor
    followed by [Subject], [From] (the formatted pair of the name and the
    user) and [To], in this order. *)
Theorem sendmail_message
    (w : World) (n e s m from_addr text : pystr) (to_addrs : list pystr) :
  SMTP_sendmail from_addr to_addrs text ∈ snd (send_email_via_smtp w n e s m []) →
  ∃ host password to_email from msg,
    smtp_settings w = Some (host, from_addr, password, to_email)
    ∧ to_addrs = [to_email]
    ∧ to_email = match getenv w "SMTP_TO" with
                 | Some v => v
                 | None => from_addr
                 end
    ∧ formataddr w n from_addr = Returned from
    ∧ as_string w msg = Returned text
    ∧ mime_text msg
      = lit "Name: " ++ n ++ [10%N] ++ lit "Email: " ++ e
        ++ [10%N; 10%N] ++ lit "Message:" ++ [10%N] ++ m
    ∧ mime_subtype msg = "plain"
    ∧ mime_charset msg = "utf-8"
    ∧ mime_headers msg
      = [("Content-Type", lit "text/plain; charset=" ++ [34%N] ++ lit "utf-8" ++ [34%N]);
         ("MIME-Version", lit "1.0");
         ("Content-Transfer-Encoding", lit "base64");
         ("Subject", or_else (Some s) (lit "New Portfolio Contact Message"));
         ("From", from); ("To", to_email)].
Proof.
  run_helper. unfold getenv_default, getenv, nonempty.
  repeat (case_match; simplify_eq/=); intros Hin;
    repeat match goal with
           | H : _ ∈ _ :: _ |- _ => apply elem_of_cons in H as [H|H]; simplify_eq/=
           | H : _ ∈ [] |- _ => by apply elem_of_nil in H
           end;
    eexists _, _, _, _, _;
    do 5 (split; [first [reflexivity | eassumption]|]); repeat split.
Qed.

Lemma sendmail_message_witness :
  let reference := mail_message (lit "Ada") Sample.ada (lit "Hi") (lit "Hello")
                     (lit "Ada <me@example.com>") (lit "me@example.com") in
  ∃ host password to_email from msg,
    smtp_settings Sample.configured = Some (host, lit "me@example.com", password, to_email)
    ∧ [lit "me@example.com"] = [to_email]
    ∧ to_email = match getenv Sample.configured "SMTP_TO" with
                 | Some v => v
                 | None => lit "me@example.com"
                 end
    ∧ formataddr Sample.configured (lit "Ada") (lit "me@example.com") = Returned from
    ∧ as_string Sample.configured msg = Returned (Sample.render reference)
    ∧ mime_text msg
      = lit "Name: " ++ lit "Ada" ++ [10%N] ++ lit "Email: " ++ Sample.ada
        ++ [10%N; 10%N] ++ lit "Message:" ++ [10%N] ++ lit "Hello"
    ∧ mime_subtype msg = "plain"
    ∧ mime_charset msg = "utf-8"
    ∧ mime_headers msg
      = [("Content-Type", lit "text/plain; charset=" ++ [34%N] ++ lit "utf-8" ++ [34%N]);
         ("MIME-Version", lit "1.0");
         ("Content-Transfer-Encoding", lit "base64");
         ("Subject", or_else (Some (lit "Hi")) (lit "New Portfolio Contact Message"));
         ("From", from); ("To", to_email)].
Proof.
  apply (sendmail_message Sample.configured (lit "Ada") Sample.ada (lit "Hi") (lit "Hello")).
  apply (list_elem_of_lookup_2 _ 4). vm_compute; reflexivity.
Defined.

(** The possible logs of the helper, by their counts. *)
Lemma send_email_counts (w : World) (n e s m : pystr) :
  let tr := snd (send_email_via_smtp w n e s m []) in
  count is_store_call tr = 0 ∧ count is_helper_call tr = 1
  ∧ count is_connect tr ≤ 1 ∧ count is_sendmail tr ≤ 1.
Proof.
  cbv zeta. run_helper.
  repeat (case_match; simplify_eq/=); unfold count; simpl; repeat split; lia.
Qed.

(** X13: nothing is retried: in the log of a request there is at most one
    store append, at most one call of the mail helper, at most one
    connection to the relay and at most one [sendmail]. *)
Theorem post_contact_does_not_retry (w : World) (body : gmap string json) :
  let tr := snd (post_contact w body) in
  count is_store_call tr ≤ 1 ∧ count is_helper_call tr ≤ 1
  ∧ count is_connect tr ≤ 1 ∧ count is_sendmail tr ≤ 1.
Proof.
  cbv zeta. unfold post_contact.
  destruct (ContactIn_validate w body) as [payload|]; [|unfold count; simpl; lia].
  rewrite submit_contact_run. cbv zeta.
  destruct (create_document w _ _); [|unfold count; simpl; lia].
  destruct (send_email_counts w (name payload) (email payload)
              (notification_subject payload) (message payload)) as (H1 & H2 & H3 & H4).
  unfold count in *. simpl. lia.
Qed.

(** X14: the subject of the notification is the submitted subject when there
    is one that is not empty, and ["Portfolio Contact"] otherwise; the default
    of the helper itself, ["New Portfolio Contact Message"], never applies to
    a request. *)
Theorem notification_subject_of_request
    (w : World) (body : gmap string json) (payload : ContactIn)
    (from_addr text : pystr) (to_addrs : list pystr) :
  ContactIn_validate w body = Some payload →
  SMTP_sendmail from_addr to_addrs text ∈ snd (post_contact w body) →
  ∃ msg, as_string w msg = Returned text
         ∧ header "Subject" msg = Some (or_else (subject payload) (lit "Portfolio Contact"))
         ∧ (∀ c s, body !! "subject" = Some (JString (c :: s)) →
              header "Subject" msg = Some (c :: s))
         ∧ (lacks body "subject" ∨ body !! "subject" = Some (JString []) →
              header "Subject" msg = Some (lit "Portfolio Contact")).
Proof.
  intros Hv Hin. rewrite (post_contact_log w body payload Hv) in Hin.
  apply elem_of_cons in Hin as [Heq|Hin]; [discriminate Heq|].
  destruct (create_document w _ _); [|by apply elem_of_nil in Hin].
  apply send_email_sendmail in Hin as (msg & Htext & Hsubj).
  assert (Hne : or_else (Some (notification_subject payload))
                  (lit "New Portfolio Contact Message") = notification_subject payload).
  { unfold notification_subject, or_else, nonempty.
    destruct (subject payload) as [[|c s]|]; reflexivity. }
  rewrite Hne in Hsubj. unfold notification_subject in Hsubj.
  destruct (validated_subject w body payload Hv) as [Habsent Hstring].
  exists msg. split; [done|]. split; [done|]. split.
  - intros c s Hs. by rewrite Hsubj, (Hstring _ Hs).
  - intros [Hl|Hs]; rewrite Hsubj.
    + by rewrite (Habsent Hl).
    + by rewrite (Hstring _ Hs).
Qed.

Lemma notification_subject_of_request_witness :
  let body := Sample.ada_body (Some (JString (lit "Hi"))) (lit "Ada") (lit "Hello") in
  let text := Sample.render
                (mail_message (lit "Ada") Sample.ada (lit "Hi") (lit "Hello")
                   (lit "Ada <me@example.com>") (lit "me@example.com")) in
  ∃ msg, as_string Sample.configured msg = Returned text
         ∧ header "Subject" msg = Some (or_else (Some (lit "Hi")) (lit "Portfolio Contact"))
         ∧ (∀ c s, body !! "subject" = Some (JString (c :: s)) →
              header "Subject" msg = Some (c :: s))
         ∧ (lacks body "subject" ∨ body !! "subject" = Some (JString []) →
              header "Subject" msg = Some (lit "Portfolio Contact")).
Proof.
  apply (notification_subject_of_request Sample.configured
           (Sample.ada_body (Some (JString (lit "Hi"))) (lit "Ada") (lit "Hello"))
           {| name := lit "Ada"; email := Sample.ada;
              subject := Some (lit "Hi"); message := lit "Hello" |}
           (lit "me@example.com") _ [lit "me@example.com"]).
  - vm_compute; reflexivity.
  - apply (list_elem_of_lookup_2 _ 5). vm_compute; reflexivity.
Defined.

(** ** More on the probe *)

(** Running the probe down to the outcomes of the external calls. *)
Ltac run_probe :=
  unfold get_test, test_database, try_except, bind, lift, setitem, modify;
  simpl.

(** X15: the fields [database_url] and [database_name] of the probe tell
    whether the environment variables are set and not empty, and nothing
    else: what the handler stored there from the database handle is
    overwritten, so the name of the database does not reach the answer. *)
Theorem probe_reports_environment_only (w : World) :
  ∃ content,
    get_test w = JSONResponse 200 content
    ∧ content !! "database_url"
      = Some (VStr (if truthy (getenv w "DATABASE_URL")
                    then check_mark ++ lit " Set" else cross_mark ++ lit " Not Set"))
    ∧ content !! "database_name"
      = Some (VStr (if truthy (getenv w "DATABASE_NAME")
                    then check_mark ++ lit " Set" else cross_mark ++ lit " Not Set")).
Proof.
  run_probe.
  destruct (import_db w) as [[db|]|e]; simpl;
    [destruct (db_name db) as [nm|e]; simpl;
       [destruct (list_collection_names db) as [cs|e]; simpl|]
    | |];
    try destruct (exn_is_import_error e);
    (eexists; split; [reflexivity|]); split; by simplify_map_eq.
Qed.

(** X16: with a handle whose attribute access and listing return, the probe
    reports a working connection and the first ten collection names, in the
    order of the listing. *)
Theorem probe_of_working_store
    (w : World) (db : Database) (nm : option pyval) (cs : list (list N)) :
  import_db w = Returned (Some db) →
  db_name db = Returned nm →
  list_collection_names db = Returned cs →
  ∃ content,
    get_test w = JSONResponse 200 content
    ∧ content !! "database" = Some (VStr (check_mark ++ lit " Connected & Working"))
    ∧ content !! "connection_status" = Some (VStr (lit "Connected"))
    ∧ content !! "collections" = Some (VList (VStr <$> take 10 cs))
    ∧ length (take 10 cs) ≤ 10.
Proof.
  intros Himport Hname Hlist.
  assert (Hlen : length (take 10 cs) ≤ 10) by (rewrite length_take; lia).
  run_probe. rewrite Himport. simpl.
  rewrite Hname. simpl. rewrite Hlist. simpl.
  eexists; split; [reflexivity|].
  split; [by simplify_map_eq|]. split; [by simplify_map_eq|].
  split; [by simplify_map_eq|]. exact Hlen.
Qed.

Lemma probe_of_working_store_witness :
  ∃ content,
    get_test Sample.with_store = JSONResponse 200 content
    ∧ content !! "database" = Some (VStr (check_mark ++ lit " Connected & Working"))
    ∧ content !! "connection_status" = Some (VStr (lit "Connected"))
    ∧ content !! "collections" = Some (VList (VStr <$> take 10 Sample.twelve_collections))
    ∧ length (take 10 Sample.twelve_collections) ≤ 10.
Proof.
  apply (probe_of_working_store Sample.with_store Sample.portfolio_db
           (Some (VStr (lit "portfolio"))) Sample.twelve_collections);
    reflexivity.
Defined.

(** X17: the [database] field of the probe is short whatever the store
    raises: at most 75 characters. *)
Theorem probe_database_text_is_capped (w : World) :
  ∃ content s,
    get_test w = JSONResponse 200 content
    ∧ content !! "database" = Some (VStr s)
    ∧ length s ≤ 75.
Proof.
  run_probe.
  destruct (import_db w) as [[db|]|e]; simpl;
    [destruct (db_name db) as [nm|e]; simpl;
       [destruct (list_collection_names db) as [cs|e]; simpl|]
    | |];
    try destruct (exn_is_import_error e);
    (eexists _, _; split; [reflexivity|]);
    (split; [by simplify_map_eq|]);
    rewrite ?length_app, ?length_cons, ?length_take;
    repeat match goal with
           | |- context [length (lit ?x)] =>
               let k := eval vm_compute in (length (lit x)) in
               change (length (lit x)) with k
           end;
    lia.
Qed.

(** X18: [connection_status] is ["Connected"] exactly when the import gave a
    handle and reading its name did not raise, also when the listing of the
    collections fails afterwards; otherwise it stays ["Not Connected"]. *)
Theorem probe_connection_status (w : World) :
  ∃ content,
    get_test w = JSONResponse 200 content
    ∧ content !! "connection_status"
      = Some (VStr (match import_db w with
                    | Returned (Some db) =>
                        match db_name db with
                        | Returned _ => lit "Connected"
                        | Raised _ => lit "Not Connected"
                        end
                    | _ => lit "Not Connected"
                    end)).
Proof.
  run_probe.
  destruct (import_db w) as [[db|]|e]; simpl;
    [destruct (db_name db) as [nm|e]; simpl;
       [destruct (list_collection_names db) as [cs|e]; simpl|]
    | |];
    try destruct (exn_is_import_error e);
    (eexists; split; [reflexivity|]); by simplify_map_eq.
Qed.

(** ** The flag [email_sent] and the gate, seen from the request *)

(** X19: [email_sent: true] in an answer means that the message was handed
    to the relay in this request: the log holds a [sendmail] that returned,
    after the store append, and the session was closed without error. *)
Theorem email_sent_true_means_sent
    (w : World) (body : gmap string json) (content : dict) (tr : list event) :
  post_contact w body = (JSONResponse 200 content, tr) →
  content !! "email_sent" = Some (VBool true) →
  ∃ from_addr to_addrs text,
    tr !! 5 = Some (SMTP_sendmail from_addr to_addrs text)
    ∧ smtp_sendmail w from_addr to_addrs text = Returned tt
    ∧ last tr = Some SMTP_exit
    ∧ smtp_exit w = Returned tt
    ∧ length tr = 7.
Proof.
  unfold post_contact.
  destruct (ContactIn_validate w body) as [payload|]; [|by intros [=]].
  rewrite submit_contact_run. cbv zeta.
  destruct (create_document w "contactmessage" (ContactDocument payload)) as [[]|err];
    [|by intros [=]].
  destruct (send_email_via_smtp w (name payload) (email payload)
              (notification_subject payload) (message payload) []) as [r t] eqn:Hrun.
  simpl. intros [= <- <-] Hsent.
  rewrite lookup_insert_ne, lookup_singleton_eq in Hsent by done.
  destruct r as [[]|err]; simpl in Hsent; try discriminate Hsent.
  apply send_email_true_inv in Hrun
    as (host & user & password & to_email & port & text & _ & -> & _ & _ & _ & Hsend & Hexit).
  by exists user, [to_email], text.
Qed.

Lemma email_sent_true_means_sent_witness :
  let tr := snd (post_contact Sample.configured
                   (Sample.ada_body None (lit "Ada") (lit "Hello"))) in
  ∃ from_addr to_addrs text,
    tr !! 5 = Some (SMTP_sendmail from_addr to_addrs text)
    ∧ smtp_sendmail Sample.configured from_addr to_addrs text = Returned tt
    ∧ last tr = Some SMTP_exit
    ∧ smtp_exit Sample.configured = Returned tt
    ∧ length tr = 7.
Proof.
  apply (email_sent_true_means_sent Sample.configured
           (Sample.ada_body None (lit "Ada") (lit "Hello"))
           {[ "ok" := VBool true; "email_sent" := VBool true ]});
    vm_compute; reflexivity.
Defined.

Lemma smtp_settings_configured (w : World) :
  smtp_configured w = false ↔ smtp_settings w = None.
Proof.
  unfold smtp_configured, smtp_settings, truthy.
  repeat case_match; simpl; split; congruence.
Qed.

(** X20: an [SMTP_TO] that is set to the empty string switches mail off,
    also with host, user and password in place: the default recipient applies
    to an unset variable only.  The helper attempts no network operation and
    does not return [True]. *)
Theorem empty_recipient_disables_mail
    (w : World) (n e s m : pystr) :
  environ w !! "SMTP_TO" = Some [] →
  snd (send_email_via_smtp w n e s m []) = [Call_send_email_via_smtp n e s m]
  ∧ fst (send_email_via_smtp w n e s m []) ≠ Returned true.
Proof.
  intros Hto.
  assert (Hgate : smtp_configured w = false).
  { unfold smtp_configured, getenv_default. rewrite Hto. simpl.
    by rewrite andb_false_r. }
  rewrite (send_email_gate w n e s m Hgate). simpl.
  split; [reflexivity|]. by destruct (py_int _).
Qed.

Lemma empty_recipient_disables_mail_witness :
  let w := Sample.with_environ (<["SMTP_TO" := []]> Sample.smtp_environ) Sample.plain in
  snd (send_email_via_smtp w (lit "Ada") Sample.ada (lit "Portfolio Contact") (lit "Hello") [])
  = [Call_send_email_via_smtp (lit "Ada") Sample.ada (lit "Portfolio Contact") (lit "Hello")]
  ∧ fst (send_email_via_smtp w (lit "Ada") Sample.ada
           (lit "Portfolio Contact") (lit "Hello") []) ≠ Returned true.
Proof.
  apply (empty_recipient_disables_mail
           (Sample.with_environ (<["SMTP_TO" := []]> Sample.smtp_environ) Sample.plain)).
  vm_compute; reflexivity.
Defined.

(** ** [int] on digits, and the entry point *)















